(** * vs-preview: the Frame / Time unit types, scenes and output state

    A shallow embedding of [vspreview/core/types.py]: the wrapper classes
    [Frame], [FrameInterval], [Time], [TimeInterval], the [Scene] range, and
    the conversion and storage code of [Output] and [AudioOutput].

    Python values are embedded as follows.
    - [int] is unbounded: [Z]. [bool] is a subclass of [int].
    - [float] is IEEE 754 binary64: [spec_float] with precision 53 and
      maximal exponent 1024, every operation rounding to nearest even;
      [/] raises on a zero divisor, [round] and [math.floor] give ints.
    - [datetime.timedelta] is its total number of microseconds, at most
      999999999 days in magnitude.
    - a raised exception is the [Error] case of [result]; code that logs
      and assigns attributes of [self] runs in a state monad over the
      attributes and the log.
    - a [Mapping[str, Any]] is a [gmap string any].
    - [main_window()], the global whose current output the constructors
      consult, is an explicit argument. *)

From Stdlib Require Import ZArith String Bool Lia.
From Stdlib Require Import Floats.SpecFloat.
From stdpp Require Import base option gmap strings list pretty.

Local Open Scope string_scope.
Local Open Scope Z_scope.

(** ** Exceptions *)

Inductive exc_type :=
| ValueError
| TypeError
| KeyError
| IndexError
| AttributeError
| NameError
| ZeroDivisionError
| OverflowError
| RuntimeError.

(** [raise E] carries the empty message, [raise E(msg)] carries [msg]. *)
Record exception := Exc { exc_class : exc_type; exc_msg : string }.

Inductive result (A : Type) :=
| Ok (a : A)
| Error (e : exception).
Arguments Ok {A} a.
Arguments Error {A} e.

Definition raise {A} (c : exc_type) : result A := Error (Exc c EmptyString).
Definition raise_msg {A} (c : exc_type) (msg : string) : result A := Error (Exc c msg).

Global Instance result_ret : MRet result := fun A a => Ok a.
Global Instance result_bind : MBind result := fun A B k m =>
  match m with
  | Ok a => k a
  | Error e => Error e
  end.

Definition is_ok {A} (r : result A) : bool :=
  match r with Ok _ => true | Error _ => false end.

Definition raises {A} (r : result A) (c : exc_type) : Prop :=
  exists msg, r = Error (Exc c msg).

Global Instance exc_type_eq_dec : EqDecision exc_type.
Proof. solve_decision. Defined.

(** [try: body except classes: handler] *)
Definition try_except {A} (body : result A) (classes : list exc_type)
    (handler : result A) : result A :=
  match body with
  | Ok a => Ok a
  | Error e => if bool_decide (exc_class e ∈ classes) then handler else Error e
  end.

(** ** float: IEEE 754 binary64 *)

Module float.
Definition prec : Z := 53.
Definition emax : Z := 1024.

Definition t := spec_float.

Definition is_zero (x : t) : bool :=
  match x with S754_zero _ => true | _ => false end.

Definition is_finite (x : t) : bool :=
  match x with S754_zero _ | S754_finite _ _ _ => true | _ => false end.

(** [bool(x)]: a float is falsy exactly when it is [0.0] or [-0.0]. *)
Definition __bool__ (x : t) : bool := negb (is_zero x).

(** [x * y] on two floats. *)
Definition __mul__ (x y : t) : t := SFmul prec emax x y.

(** [float(n)] for an int, also the conversion of an int operand of a
    mixed int/float operation; too large an int raises. *)
Definition of_int (n : Z) : result t :=
  match binary_normalize prec emax n 0 false with
  | S754_infinity _ => raise_msg OverflowError "int too large to convert to float"
  | x => Ok x
  end.

(** [x / y] on two floats. *)
Definition __truediv__ (x y : t) : result t :=
  if is_zero y then raise_msg ZeroDivisionError "float division by zero"
  else Ok (SFdiv prec emax x y).

(** [n / y] for an int [n] and a float [y]: the int is converted first. *)
Definition __rtruediv__ (y : t) (n : Z) : result t :=
  x ← of_int n; __truediv__ x y.

(** [x / n] for a float [x] and an int [n]. *)
Definition truediv_int (x : t) (n : Z) : result t :=
  y ← of_int n; __truediv__ x y.

(** [a / b] on two ints: the correctly rounded quotient. *)
Definition int_truediv (a b : Z) : result t :=
  match b, a with
  | Z0, _ => raise_msg ZeroDivisionError "division by zero"
  | _, Z0 => Ok (S754_zero (b <? 0))
  | _, _ =>
      match SFdiv prec emax
              (S754_finite (a <? 0) (Z.to_pos (Z.abs a)) 0)
              (S754_finite (b <? 0) (Z.to_pos (Z.abs b)) 0) with
      | S754_infinity _ =>
          raise_msg OverflowError "integer division result too large for a float"
      | x => Ok x
      end
  end.

(** [x > 0] against the int [0]; it is false of a NaN. *)
Definition gt_zero (x : t) : bool := SFltb (S754_zero false) x.

(** [math.modf]: the integral part (towards zero) and the exact
    fractional part, which carries the sign of [x]. *)
Definition modf (x : t) : Z * t :=
  match x with
  | S754_finite s m e =>
      if 0 <=? e then (cond_Zopp s (Z.pos m * 2 ^ e), S754_zero s)
      else
        let q := Z.pos m / 2 ^ (- e) in
        let r := Z.pos m mod 2 ^ (- e) in
        (cond_Zopp s q, binary_normalize prec emax (cond_Zopp s r) e s)
  | _ => (0, x)
  end.

Definition not_an_integer {A} (x : t) : result A :=
  match x with
  | S754_nan => raise_msg ValueError "cannot convert float NaN to integer"
  | _ => raise_msg OverflowError "cannot convert float infinity to integer"
  end.

(** The exact value of a finite float, as a fraction with a positive
    denominator: what [floor] and [round] are measured against. *)
Definition exact (x : t) : Z * Z :=
  match x with
  | S754_finite s m e => (cond_Zopp s (Z.pos m) * 2 ^ Z.max 0 e, 2 ^ Z.max 0 (- e))
  | _ => (0, 1)
  end.

(** [math.floor(x)]: the largest int not above [x]. *)
Definition floor (x : t) : result Z :=
  match x with
  | S754_zero _ => Ok 0
  | S754_finite s m e =>
      if 0 <=? e then Ok (cond_Zopp s (Z.pos m * 2 ^ e))
      else Ok (cond_Zopp s (Z.pos m) / 2 ^ (- e))
  | _ => not_an_integer x
  end.

(** [round(x)] with one argument: the nearest int, ties to even. *)
Definition round (x : t) : result Z :=
  match x with
  | S754_zero _ => Ok 0
  | S754_finite s m e =>
      if 0 <=? e then Ok (cond_Zopp s (Z.pos m * 2 ^ e))
      else
        let q := cond_Zopp s (Z.pos m) / 2 ^ (- e) in
        let r := cond_Zopp s (Z.pos m) mod 2 ^ (- e) in
        match 2 * r ?= 2 ^ (- e) with
        | Lt => Ok q
        | Gt => Ok (q + 1)
        | Eq => if Z.even q then Ok q else Ok (q + 1)
        end
  | _ => not_an_integer x
  end.
End float.

(** ** Data model *)

(** [datetime.timedelta], normalised to its total number of microseconds
    ([days], [seconds] and [microseconds] are the quotients of that total). *)
Record timedelta := Timedelta { total_microseconds : Z }.

(** An instance of a subclass of [YAMLObjectWrapper] with
    [__slots__ = ('value',)]; the class is told by its [yaml_tag]. *)
Record YAMLObjectWrapper (yaml_tag : string) (V : Type) := wrap { value : V }.
Arguments wrap {yaml_tag V} value.
Arguments value {yaml_tag V} _.

Definition Frame := YAMLObjectWrapper "!Frame" Z.
Definition FrameInterval := YAMLObjectWrapper "!FrameInterval" Z.
Definition Time := YAMLObjectWrapper "!Time" timedelta.
Definition TimeInterval := YAMLObjectWrapper "!TimeInterval" timedelta.

(** [Scene], with [__slots__ = ('start', 'end', 'label')]. *)
Record Scene := { start : Frame; end_ : Frame; label : string }.

(** Modelled from the spec: [SceningLists] of [vspreview.models] is not among
    the sources; the spec describes it as a collection of named ordered
    collections of [Scene]. *)
Record SceningList := { list_name : string; items : list Scene }.
Definition SceningLists := list SceningList.

(** [Any]: the values that reach a constructor or sit in a stored mapping. *)
Inductive any :=
| PyNone
| PyBool (b : bool)
| PyInt (n : Z)
| PyFloat (x : float.t)
| PyStr (s : string)
| PyTimedelta (d : timedelta)
| PyFrame (f : Frame)
| PyFrameInterval (d : FrameInterval)
| PyTime (t : Time)
| PyTimeInterval (d : TimeInterval)
| PyScene (s : Scene)
| PySceningLists (l : SceningLists).

Inductive class :=
| cls_NoneType | cls_bool | cls_int | cls_float | cls_str | cls_timedelta
| cls_Frame | cls_FrameInterval | cls_Time | cls_TimeInterval
| cls_Scene | cls_SceningLists.

Global Instance class_eq_dec : EqDecision class.
Proof. solve_decision. Defined.

Definition type (v : any) : class :=
  match v with
  | PyNone => cls_NoneType
  | PyBool _ => cls_bool
  | PyInt _ => cls_int
  | PyFloat _ => cls_float
  | PyStr _ => cls_str
  | PyTimedelta _ => cls_timedelta
  | PyFrame _ => cls_Frame
  | PyFrameInterval _ => cls_FrameInterval
  | PyTime _ => cls_Time
  | PyTimeInterval _ => cls_TimeInterval
  | PyScene _ => cls_Scene
  | PySceningLists _ => cls_SceningLists
  end.

(** [bool] is the one subclass among these classes: it derives from [int]. *)
Definition issubclass (c d : class) : bool :=
  bool_decide (c = d) || (bool_decide (c = cls_bool) && bool_decide (d = cls_int)).

Definition isinstance (v : any) (c : class) : bool := issubclass (type v) c.

(** The builtin values held in a [value] slot, with their [==] and [>]. *)
Inductive builtin :=
| an_int (n : Z)
| a_timedelta (d : timedelta).

Class Wrapped (V : Type) := slot : V -> builtin.
Global Instance int_wrapped : Wrapped Z := an_int.
Global Instance timedelta_wrapped : Wrapped timedelta := a_timedelta.

(** [x == y]: values of unrelated builtin types are unequal. *)
Definition py_eq (x y : builtin) : bool :=
  match x, y with
  | an_int m, an_int n => m =? n
  | a_timedelta c, a_timedelta d => total_microseconds c =? total_microseconds d
  | _, _ => false
  end.

(** [x > y]: unrelated builtin types are unordered. *)
Definition py_gt (x y : builtin) : result bool :=
  match x, y with
  | an_int m, an_int n => Ok (m >? n)
  | a_timedelta c, a_timedelta d => Ok (total_microseconds c >? total_microseconds d)
  | _, _ => raise_msg TypeError "'>' not supported between instances"
  end.

(** ** class YAMLObjectWrapper: comparisons by the wrapped value *)

Module YAMLObjectWrapper.
Section comparisons.
Context {tag1 tag2 : string} {V1 V2 : Type} `{Wrapped V1, Wrapped V2}.
Implicit Types (self : YAMLObjectWrapper tag1 V1) (other : YAMLObjectWrapper tag2 V2).

Definition __eq__ self other : bool :=
  py_eq (slot (value self)) (slot (value other)).

Definition __gt__ self other : result bool :=
  py_gt (slot (value self)) (slot (value other)).

Definition __ne__ self other : bool :=
  negb (__eq__ self other).

Definition __le__ self other : result bool :=
  gt ← __gt__ self other; Ok (negb gt).

(** [self.__eq__(other) or self.__gt__(other)]: [or] evaluates its right
    operand only when the left one is false. *)
Definition __ge__ self other : result bool :=
  if __eq__ self other then Ok true else __gt__ self other.

Definition __lt__ self other : result bool :=
  ge ← __ge__ self other; Ok (negb ge).
End comparisons.

Definition __int__ {tag} (self : YAMLObjectWrapper tag Z) : Z := value self.
End YAMLObjectWrapper.

(** [main_window().current_output], the conversion context that the
    constructors look up when they are given a value of the other unit. *)
Record MainWindow := {
  current_output_to_frame : Time -> result Frame;
  current_output_to_time : Frame -> result Time;
  current_output_to_frame_interval : TimeInterval -> result FrameInterval;
  current_output_to_time_interval : FrameInterval -> result TimeInterval;
}.

(** The integer denoted by an instance of [int]; [True] and [False] are the
    ints [1] and [0]. *)
Definition int_value (v : any) : Z :=
  match v with
  | PyInt n => n
  | PyBool b => Z.b2z b
  | _ => 0
  end.

(** ** class FrameInterval *)

Module FrameInterval.
Section main_window.
Context (main_window : MainWindow).

Definition __init__ (init_value : any) : result FrameInterval :=
  match init_value with
  | PyInt _ | PyBool _ => Ok (wrap (int_value init_value))
  | PyFrameInterval d => Ok (wrap (value d))
  | PyTimeInterval d =>
      r ← current_output_to_frame_interval main_window d; Ok (wrap (value r))
  | _ => raise TypeError
  end.

Definition __add__ (self other : FrameInterval) : result FrameInterval :=
  __init__ (PyInt (value self + value other)).

Definition __sub__ (self other : FrameInterval) : result FrameInterval :=
  __init__ (PyInt (value self - value other)).

Definition __mul__ (self : FrameInterval) (other : Z) : result FrameInterval :=
  __init__ (PyInt (value self * other)).

Definition __rmul__ (self : FrameInterval) (other : Z) : result FrameInterval :=
  __init__ (PyInt (other * value self)).
End main_window.

(** The in-place operators assign to [self.value] and return [self]:
    the result is the new state of the same object. *)
Definition __iadd__ (self other : FrameInterval) : FrameInterval :=
  wrap (value self + value other).

Definition __isub__ (self other : FrameInterval) : FrameInterval :=
  wrap (value self - value other).

Definition __imul__ (self : FrameInterval) (other : Z) : FrameInterval :=
  wrap (value self * other).
End FrameInterval.

(** ** class Frame *)

Module Frame.
(** The invariant of the class: a Frame wraps a non-negative int. The
    constructor establishes it for an int argument. *)
Definition invariant (self : Frame) : Prop := 0 <= value self.

Section main_window.
Context (main_window : MainWindow).

Definition __init__ (init_value : any) : result Frame :=
  match init_value with
  | PyInt _ | PyBool _ =>
      if int_value init_value <? 0 then raise ValueError
      else Ok (wrap (int_value init_value))
  | PyFrame f => Ok (wrap (value f))
  | PyTime t =>
      f ← current_output_to_frame main_window t; Ok (wrap (value f))
  | _ => raise TypeError
  end.

Definition __add__ (self : Frame) (other : FrameInterval) : result Frame :=
  __init__ (PyInt (value self + value other)).

(** [other] is dispatched on its class; the result is the [Frame] or the
    [FrameInterval] built by the matching constructor. *)
Definition __sub__ (self : Frame) (other : any) : result any :=
  match other with
  | PyFrame b =>
      r ← FrameInterval.__init__ main_window (PyInt (value self - value b));
      Ok (PyFrameInterval r)
  | PyFrameInterval d =>
      r ← __init__ (PyInt (value self - value d)); Ok (PyFrame r)
  | _ => raise TypeError
  end.
End main_window.

(** [self.value += other.value; return self] *)
Definition __iadd__ (self : Frame) (other : FrameInterval) : Frame :=
  wrap (value self + value other).

(** [self.value -= other.value; return self], for either class of
    [other]: nothing is checked. *)
Definition __isub__ {tag} (self : Frame) (other : YAMLObjectWrapper tag Z) : Frame :=
  wrap (value self - value other).
End Frame.

(** ** datetime.timedelta *)

Module timedelta.
Definition us_per_second : Z := 1000000.
Definition us_per_day : Z := 86400 * us_per_second.

(** The float literal [1e6]. *)
Definition million : float.t :=
  Eval vm_compute in binary_normalize float.prec float.emax 1000000 0 false.

(** Every constructed [timedelta] has [abs(days) <= 999999999]. *)
Definition normalized (us : Z) : result timedelta :=
  if Z.abs (us / us_per_day) >? 999999999
  then raise_msg OverflowError "days must have magnitude <= 999999999"
  else Ok (Timedelta us).

(** The constructor called with keyword arguments, for the one keyword
    that the sources pass, [seconds]; [None] stands for no keyword at all.
    A float is split by [math.modf]: its whole seconds are exact and its
    fraction is rounded to the nearest microsecond, ties to even. *)
Definition new (seconds : option any) : result timedelta :=
  match seconds with
  | None => Ok (Timedelta 0)
  | Some (PyFloat x) =>
      if float.is_finite x then
        let '(whole, secondsfrac) := float.modf x in
        us ← float.round (float.__mul__ secondsfrac million);
        normalized (whole * us_per_second + us)
      else float.not_an_integer x
  | Some (PyInt n) => normalized (n * us_per_second)
  | Some (PyBool b) => normalized (Z.b2z b * us_per_second)
  | Some _ =>
      raise_msg TypeError "unsupported type for timedelta seconds component"
  end.

(** [total_seconds()]: the microseconds divided by [10**6]. *)
Definition total_seconds (self : timedelta) : result float.t :=
  float.int_truediv (total_microseconds self) us_per_second.

(** The invariant of the class: the days of a [timedelta] are at most
    999999999 in magnitude. *)
Definition valid (self : timedelta) : Prop :=
  Z.abs (total_microseconds self / us_per_day) <= 999999999.

(** [a + b], [a - b] and [a * n] for an int [n]: exact on the
    microseconds, the result being a new [timedelta] checked for range. *)
Definition __add__ (self other : timedelta) : result timedelta :=
  normalized (total_microseconds self + total_microseconds other).

Definition __sub__ (self other : timedelta) : result timedelta :=
  normalized (total_microseconds self - total_microseconds other).

Definition __mul__ (self : timedelta) (n : Z) : result timedelta :=
  normalized (total_microseconds self * n).
End timedelta.

(** ** class TimeInterval *)

Module TimeInterval.
Section main_window.
Context (main_window : MainWindow).

(** [kwargs] is the [seconds] keyword, when given: [any(kwargs)] holds
    as soon as there is a keyword. *)
Definition __init__ (init_value : any) (kwargs : option any) : result TimeInterval :=
  match init_value with
  | PyTimedelta d => Ok (wrap d)
  | PyTimeInterval t => Ok (wrap (value t))
  | PyFrameInterval d =>
      r ← current_output_to_time_interval main_window d; Ok (wrap (value r))
  | _ =>
      match kwargs, init_value with
      | Some _, _ => d ← timedelta.new kwargs; Ok (wrap d)
      | None, PyNone => d ← timedelta.new None; Ok (wrap d)
      | None, _ => raise TypeError
      end
  end.
End main_window.

Definition __float__ (self : TimeInterval) : result float.t :=
  timedelta.total_seconds (value self).

Section arithmetic.
Context (main_window : MainWindow).

Definition __add__ (self other : TimeInterval) : result TimeInterval :=
  d ← timedelta.__add__ (value self) (value other);
  __init__ main_window (PyTimedelta d) None.

Definition __sub__ (self other : TimeInterval) : result TimeInterval :=
  d ← timedelta.__sub__ (value self) (value other);
  __init__ main_window (PyTimedelta d) None.

Definition __mul__ (self : TimeInterval) (other : Z) : result TimeInterval :=
  d ← timedelta.__mul__ (value self) other;
  __init__ main_window (PyTimedelta d) None.

Definition __rmul__ (self : TimeInterval) (other : Z) : result TimeInterval :=
  d ← timedelta.__mul__ (value self) other;
  __init__ main_window (PyTimedelta d) None.
End arithmetic.

(** [self.value += other.value; return self]: the sum is a new
    [timedelta], so an overflow raises before the slot is assigned. *)
Definition __iadd__ (self other : TimeInterval) : result TimeInterval :=
  d ← timedelta.__add__ (value self) (value other); Ok (wrap d).

Definition __isub__ (self other : TimeInterval) : result TimeInterval :=
  d ← timedelta.__sub__ (value self) (value other); Ok (wrap d).
End TimeInterval.

(** ** class Time *)

Module Time.
Section main_window.
Context (main_window : MainWindow).

Definition __init__ (init_value : any) (kwargs : option any) : result Time :=
  match init_value with
  | PyTimedelta d => Ok (wrap d)
  | PyTime t => Ok (wrap (value t))
  | PyFrame f =>
      r ← current_output_to_time main_window f; Ok (wrap (value r))
  | _ =>
      match kwargs, init_value with
      | Some _, _ => d ← timedelta.new kwargs; Ok (wrap d)
      | None, PyNone => d ← timedelta.new None; Ok (wrap d)
      | None, _ => raise TypeError
      end
  end.
End main_window.

Definition __float__ (self : Time) : result float.t :=
  timedelta.total_seconds (value self).

Section arithmetic.
Context (main_window : MainWindow).

Definition __add__ (self : Time) (other : TimeInterval) : result Time :=
  d ← timedelta.__add__ (value self) (value other);
  __init__ main_window (PyTimedelta d) None.

(** [other] is dispatched on its class, as in [Frame.__sub__]. *)
Definition __sub__ (self : Time) (other : any) : result any :=
  match other with
  | PyTime t =>
      d ← timedelta.__sub__ (value self) (value t);
      r ← TimeInterval.__init__ main_window (PyTimedelta d) None;
      Ok (PyTimeInterval r)
  | PyTimeInterval i =>
      d ← timedelta.__sub__ (value self) (value i);
      r ← __init__ main_window (PyTimedelta d) None;
      Ok (PyTime r)
  | _ => raise TypeError
  end.
End arithmetic.

Definition __iadd__ (self : Time) (other : TimeInterval) : result Time :=
  d ← timedelta.__add__ (value self) (value other); Ok (wrap d).

Definition __isub__ {tag} (self : Time) (other : YAMLObjectWrapper tag timedelta)
    : result Time :=
  d ← timedelta.__sub__ (value self) (value other); Ok (wrap d).
End Time.

(** [state[key]] on a mapping *)
Definition getitem (state : gmap string any) (key : string) : result any :=
  match state !! key with
  | Some v => Ok v
  | None => raise_msg KeyError key
  end.

(** ** class Scene *)

Module Scene.
Definition __slots__ : list string := ["start"; "end"; "label"].

Definition __init__ (start end_ : option Frame) (label : string) : result Scene :=
  '(s, e) ← match start, end_ with
            | Some s, Some e => Ok (s, e)
            | Some s, None => Ok (s, s)
            | None, Some e => Ok (e, e)
            | None, None => raise ValueError
            end;
  gt ← YAMLObjectWrapper.__gt__ s e;
  if gt : bool then Ok {| start := e; end_ := s; label := label |}
  else Ok {| start := s; end_ := e; label := label |}.

Definition __eq__ (self other : Scene) : bool :=
  YAMLObjectWrapper.__eq__ (start self) (start other)
  && YAMLObjectWrapper.__eq__ (end_ self) (end_ other).

Definition __gt__ (self other : Scene) : result bool :=
  if YAMLObjectWrapper.__ne__ (start self) (start other)
  then YAMLObjectWrapper.__gt__ (start self) (start other)
  else YAMLObjectWrapper.__gt__ (end_ self) (end_ other).

Definition duration (main_window : MainWindow) (self : Scene) : result any :=
  Frame.__sub__ main_window (end_ self) (PyFrame (start self)).

(** [self.start <= frame <= self.end] *)
Definition __contains__ (self : Scene) (frame : Frame) : result bool :=
  le ← YAMLObjectWrapper.__le__ (start self) frame;
  if le : bool then YAMLObjectWrapper.__le__ frame (end_ self) else Ok false.

(** [if not isinstance(v, Frame): raise TypeError(msg)], and the same for
    [str]; the checked value is handed on with its class. *)
Definition check_Frame (v : any) (msg : string) : result Frame :=
  match v with
  | PyFrame f => Ok f
  | _ => raise_msg TypeError msg
  end.

Definition check_str (v : any) (msg : string) : result string :=
  match v with
  | PyStr s => Ok s
  | _ => raise_msg TypeError msg
  end.

Definition lacks_fields : string :=
  "Scene lacks one or more of its fields. It's most probably corrupted. Check those: "
  ++ String.concat ", " __slots__ ++ ".".

(** The three checks run in the order of the source inside one [try];
    the constructor then receives the three values just checked. *)
Definition __setstate__ (state : gmap string any) : result Scene :=
  '(s, e, l) ← try_except
    (v ← getitem state "start";
     s ← check_Frame v "Start frame of Scene is not a Frame. It's most probably corrupted.";
     v ← getitem state "end";
     e ← check_Frame v "End frame of Scene is not a Frame. It's most probably corrupted.";
     v ← getitem state "label";
     l ← check_str v "Label of Scene is not a string. It's most probably corrupted.";
     Ok (s, e, l))
    [KeyError]
    (raise_msg KeyError lacks_fields);
  __init__ (Some s) (Some e) l.

Definition __getstate__ (self : Scene) : gmap string any :=
  {[ "start" := PyFrame (start self);
     "end" := PyFrame (end_ self);
     "label" := PyStr (label self) ]}.

(** The comparisons that [Scene] inherits from [YAMLObjectWrapper]: they
    call [self.__eq__] and [self.__gt__], which are those of [Scene]. *)
Definition __ne__ (self other : Scene) : bool :=
  negb (__eq__ self other).

Definition __le__ (self other : Scene) : result bool :=
  gt ← __gt__ self other; Ok (negb gt).

Definition __ge__ (self other : Scene) : result bool :=
  if __eq__ self other then Ok true else __gt__ self other.

Definition __lt__ (self other : Scene) : result bool :=
  ge ← __ge__ self other; Ok (negb ge).
End Scene.

(** ** Loading from storage: assignments to [self] and logged warnings *)

(** The object under restoration is its attribute table, [hasattr] being
    membership; the log collects the messages of [logging.warning]. *)
Record world := World { self_attrs : gmap string any; warnings : list string }.

Definition Load (A : Type) : Type := world -> result A * world.

Global Instance Load_ret : MRet Load := fun A a w => (Ok a, w).
Global Instance Load_bind : MBind Load := fun A B k m w =>
  match m w with
  | (Ok a, w') => k a w'
  | (Error e, w') => (Error e, w')
  end.

Definition lift {A} (r : result A) : Load A := fun w => (r, w).

Module logging.
Definition warning (msg : string) : Load unit :=
  fun w => (Ok tt, World (self_attrs w) (warnings w ++ [msg])).
End logging.

(** [self.__setattr__(name, value)] *)
Definition __setattr__ (name : string) (v : any) : Load unit :=
  fun w => (Ok tt, World (<[name := v]> (self_attrs w)) (warnings w)).

(** [try: body except classes: handler], the state reached by [body]
    being kept when the handler runs. *)
Definition try_except_load {A} (body : Load A) (classes : list exc_type)
    (handler : Load A) : Load A :=
  fun w =>
    match body w with
    | (Ok a, w') => (Ok a, w')
    | (Error e, w') =>
        if bool_decide (exc_class e ∈ classes) then handler w' else (Error e, w')
    end.

(** Modelled from the spec: [try_load] of [vspreview.utils] is not among the
    sources. Its callers pass the stored mapping, the attribute name, the
    expected class, a receiver and a message; the spec has the loader
    attempt a typed load and, on a missing or mistyped value, log a warning
    and keep the default instead of failing. *)
Definition try_load (state : gmap string any) (name : string) (ty : class)
    (receiver : string -> any -> Load unit) (error_msg : string) : Load unit :=
  match state !! name with
  | Some v => if isinstance v ty then receiver name v else logging.warning error_msg
  | None => logging.warning error_msg
  end.

(** [str(n)] for an int. *)
Definition str (n : Z) : string := pretty n.

(** ** class Output (video) *)

(** What [__init__] reads of its [vs_output]: the frame count and the
    frame rate of the prepared clip, and the [Name] property of frame 0. *)
Record VideoOutputTuple := {
  num_frames : Z;
  fps_numerator : Z;
  fps_denominator : Z;
  props_Name : option string;
}.

Module Output.
Definition storable_attrs : list string :=
  ["name"; "last_showed_frame"; "play_fps"; "frame_to_show"; "scening_lists"].

(** The storable attributes are kept by name, as [__setattr__] and
    [hasattr] see them; of the runtime attributes, those assigned after
    the first call of a method of [self] are [None] until assigned. *)
Record t := {
  storable : gmap string any;
  index : Z;
  fps_num : Z;
  fps_den : Z;
  fps : float.t;
  total_frames : FrameInterval;
  total_time : option TimeInterval;
  end_frame : option Frame;
  end_time : option Time;
}.

Definition _calculate_frame (self : t) (seconds : float.t) : result Z :=
  float.round (float.__mul__ seconds (fps self)).

(** [frame_num / (self.fps or 1)]: a falsy [fps] gives way to the int 1. *)
Definition _calculate_seconds (self : t) (frame_num : Z) : result float.t :=
  if float.__bool__ (fps self) then float.__rtruediv__ (fps self) frame_num
  else float.int_truediv frame_num 1.

Section main_window.
Context (main_window : MainWindow).

Definition to_frame (self : t) (time : Time) : result Frame :=
  seconds ← Time.__float__ time;
  n ← _calculate_frame self seconds;
  Frame.__init__ main_window (PyInt n).

Definition to_time (self : t) (frame : Frame) : result Time :=
  seconds ← _calculate_seconds self (YAMLObjectWrapper.__int__ frame);
  Time.__init__ main_window PyNone (Some (PyFloat seconds)).

Definition to_frame_interval (self : t) (time_interval : TimeInterval)
    : result FrameInterval :=
  seconds ← TimeInterval.__float__ time_interval;
  n ← _calculate_frame self seconds;
  FrameInterval.__init__ main_window (PyInt n).

Definition to_time_interval (self : t) (frame_interval : FrameInterval)
    : result TimeInterval :=
  seconds ← _calculate_seconds self (YAMLObjectWrapper.__int__ frame_interval);
  TimeInterval.__init__ main_window PyNone (Some (PyFloat seconds)).

(** [v > end_frame] for a stored attribute [v]: an instance with a
    [value] slot is compared by it, any other object has none. *)
Definition gt_end_frame (v : any) (end_frame : Frame) : result bool :=
  match v with
  | PyFrame f => YAMLObjectWrapper.__gt__ f end_frame
  | PyFrameInterval d => YAMLObjectWrapper.__gt__ d end_frame
  | PyTime t => YAMLObjectWrapper.__gt__ t end_frame
  | PyTimeInterval d => YAMLObjectWrapper.__gt__ d end_frame
  | _ => raise_msg AttributeError "value"
  end.

(** [__init__], without the preparation of the clip for rendering.
    [self] holds the attributes already on the object: none for a fresh
    output, the restored ones for an output read from storage. *)
Definition __init__ (self : gmap string any) (vs_output : VideoOutputTuple)
    (index : Z) : result t :=
  let fps_num := fps_numerator vs_output in
  let fps_den := fps_denominator vs_output in
  fps ← float.int_truediv fps_num fps_den;
  total_frames ← FrameInterval.__init__ main_window (PyInt (num_frames vs_output));
  let this := {| storable := self; index := index; fps_num := fps_num;
                 fps_den := fps_den; fps := fps; total_frames := total_frames;
                 total_time := None; end_frame := None; end_time := None |} in
  one ← FrameInterval.__init__ main_window (PyInt 1);
  last ← FrameInterval.__sub__ main_window total_frames one;
  total_time ← to_time_interval this last;
  end_frame ← Frame.__init__ main_window
                (PyInt (YAMLObjectWrapper.__int__ total_frames - 1));
  end_time ← to_time this end_frame;
  let self := <["name" := PyStr ("Output " ++ str index)]> self in
  let self := match props_Name vs_output with
              | Some n => <["name" := PyStr ("Output " ++ str index ++ ": " ++ n)]> self
              | None => self
              end in
  reset ← match self !! "last_showed_frame" with
          | None => Ok true
          | Some v => gt_end_frame v end_frame
          end;
  self ← (if reset : bool
          then zero ← Frame.__init__ main_window (PyInt 0);
               Ok (<["last_showed_frame" := PyFrame zero]> self)
          else Ok self);
  let self := match self !! "scening_lists" with
              | None => <["scening_lists" := PySceningLists []]> self
              | Some _ => self
              end in
  self ← match self !! "play_fps" with
         | None => play_fps ← float.int_truediv fps_num fps_den;
                   Ok (<["play_fps" := PyFloat play_fps]> self)
         | Some _ => Ok self
         end;
  let self := match self !! "frame_to_show" with
              | None => <["frame_to_show" := PyNone]> self
              | Some _ => self
              end in
  Ok {| storable := self; index := index; fps_num := fps_num;
        fps_den := fps_den; fps := fps; total_frames := total_frames;
        total_time := Some total_time; end_frame := Some end_frame;
        end_time := Some end_time |}.

(** [play_fps > 0] for a value known to be a float. *)
Definition gt_0 (v : any) : bool :=
  match v with
  | PyFloat x => float.gt_zero x
  | _ => false
  end.

Definition __setstate__ (state : gmap string any) : Load unit :=
  __setattr__ "name" (PyStr EmptyString);;
  try_load state "name" cls_str __setattr__
    "Storage loading: Output: failed to parse name.";;
  zero ← lift (Frame.__init__ main_window (PyInt 0));
  __setattr__ "last_showed_frame" (PyFrame zero);;
  try_except_load
    (try_load state "last_showed_frame" cls_Frame __setattr__
       "Storage loading: Output: failed to parse last showed frame.")
    [IndexError]
    (logging.warning "Storage loading: Output: last showed frame is out of range.");;
  __setattr__ "scening_lists" (PySceningLists []);;
  try_load state "scening_lists" cls_SceningLists __setattr__
    "Storage loading: Output: scening lists weren't parsed successfully.";;
  try_except_load
    (play_fps ← lift (getitem state "play_fps");
     if negb (isinstance play_fps cls_float) then lift (raise TypeError)
     else if gt_0 play_fps then __setattr__ "play_fps" play_fps
     else mret tt)
    [KeyError; TypeError]
    (logging.warning "Storage loading: Output: play fps weren't parsed successfully.").
End main_window.

(** [setattr(self, name, v)] for a storable attribute. *)
Definition set_storable (self : t) (name : string) (v : any) : t :=
  {| storable := <[name := v]> (storable self); index := index self;
     fps_num := fps_num self; fps_den := fps_den self; fps := fps self;
     total_frames := total_frames self; total_time := total_time self;
     end_frame := end_frame self; end_time := end_time self |}.

(** [{attr_name: getattr(self, attr_name) for attr_name in names}]: the
    first attribute that the object lacks raises. *)
Fixpoint getattrs (self : t) (names : list string) : result (gmap string any) :=
  match names with
  | [] => Ok ∅
  | attr_name :: names =>
      v ← match storable self !! attr_name with
          | Some v => Ok v
          | None => raise_msg AttributeError attr_name
          end;
      state ← getattrs self names;
      Ok (<[attr_name := v]> state)
  end.

Definition __getstate__ (self : t) : result (gmap string any) :=
  getattrs self storable_attrs.

(** A call of the method [render_frame(self, frame)] with the given
    positional and keyword arguments. The arguments are bound to the
    parameters before the body runs: a call with anything but the one
    argument [frame] raises [TypeError]. The body renders the frame; it
    is given by its outcome. *)
Definition render_frame (body : any -> result unit) (self : t)
    (args : list any) (kwargs : list (string * any)) : result unit :=
  match args, kwargs with
  | [frame], [] => body frame
  | [], [(name, frame)] =>
      if String.eqb name "frame" then body frame else raise TypeError
  | _, _ => raise TypeError
  end.
End Output.

(** ** class AudioOutput *)

(** What [__init__] reads of its audio node, and the answer of the audio
    device to [isFormatSupported]. *)
Record AudioNode := {
  audio_num_frames : Z;
  sample_rate : Z;
  num_channels : Z;
  format_supported : bool;
}.

Module AudioOutput.
Definition SAMPLES_PER_FRAME : Z := 3000.

Record t := {
  name : string;
  index : Z;
  fps_num : Z;
  fps_den : Z;
  fps : float.t;
  total_frames : FrameInterval;
  total_time : option TimeInterval;
  end_frame : option Frame;
  end_time : option Time;
}.

Definition _calculate_frame (self : t) (seconds : float.t) : result Z :=
  float.floor (float.__mul__ seconds (fps self)).

Definition _calculate_seconds (self : t) (frame_num : Z) : result float.t :=
  float.__rtruediv__ (fps self) frame_num.

Section main_window.
Context (main_window : MainWindow).

Definition to_frame (self : t) (time : Time) : result Frame :=
  seconds ← Time.__float__ time;
  n ← _calculate_frame self seconds;
  Frame.__init__ main_window (PyInt n).

Definition to_time (self : t) (frame : Frame) : result Time :=
  seconds ← _calculate_seconds self (YAMLObjectWrapper.__int__ frame);
  Time.__init__ main_window PyNone (Some (PyFloat seconds)).

Definition to_frame_interval (self : t) (time_interval : TimeInterval)
    : result FrameInterval :=
  seconds ← TimeInterval.__float__ time_interval;
  n ← _calculate_frame self seconds;
  FrameInterval.__init__ main_window (PyInt n).

Definition to_time_interval (self : t) (frame_interval : FrameInterval)
    : result TimeInterval :=
  seconds ← _calculate_seconds self (YAMLObjectWrapper.__int__ frame_interval);
  TimeInterval.__init__ main_window PyNone (Some (PyFloat seconds)).

(** [__init__], without the set-up of the audio device. [name] is the
    attribute already on the object, if any. *)
Definition __init__ (name : option string) (vs_output : AudioNode) (index : Z)
    : result t :=
  if negb (num_channels vs_output =? 2)
  then raise_msg RuntimeError "Non-2-channel audio is not supported"
  else if negb (format_supported vs_output)
  then raise_msg RuntimeError "Audio format not supported"
  else
    let fps_num := sample_rate vs_output in
    let fps_den := SAMPLES_PER_FRAME in
    fps ← float.int_truediv fps_num fps_den;
    total_frames ← FrameInterval.__init__ main_window
                     (PyInt (audio_num_frames vs_output));
    let name := default ("Audio Output " ++ str index) name in
    let this := {| name := name; index := index; fps_num := fps_num;
                   fps_den := fps_den; fps := fps; total_frames := total_frames;
                   total_time := None; end_frame := None; end_time := None |} in
    one ← FrameInterval.__init__ main_window (PyInt 1);
    last ← FrameInterval.__sub__ main_window total_frames one;
    total_time ← to_time_interval this last;
    end_frame ← Frame.__init__ main_window
                  (PyInt (YAMLObjectWrapper.__int__ total_frames - 1));
    end_time ← to_time this end_frame;
    Ok {| name := name; index := index; fps_num := fps_num;
          fps_den := fps_den; fps := fps; total_frames := total_frames;
          total_time := Some total_time; end_frame := Some end_frame;
          end_time := Some end_time |}.
End main_window.
End AudioOutput.

(** ** Objects by identity *)

(** A [Frame] is a mutable object and a name denotes it by identity, so an
    assignment to its slot is seen through every name bound to it. *)
Module Store.
(** [a - d]: [__sub__] runs on the object bound to [a]; it returns a new
    object or raises, and assigns to no slot. *)
Definition sub (main_window : MainWindow) (σ : gmap positive Frame)
    (a : positive) (d : FrameInterval) : result any * gmap positive Frame :=
  match σ !! a with
  | Some self => (Frame.__sub__ main_window self (PyFrameInterval d), σ)
  | None => (raise NameError, σ)
  end.

(** [a -= d]: [__isub__] assigns to the slot of the object bound to [a]
    and returns that same object, to which [a] is bound again. *)
Definition isub (σ : gmap positive Frame) (a : positive) (d : FrameInterval)
    : result unit * gmap positive Frame :=
  match σ !! a with
  | Some self => (Ok tt, <[a := Frame.__isub__ self d]> σ)
  | None => (raise NameError, σ)
  end.
End Store.

(** ** Main windows *)

(** A window without a current output: [current_output] is [None] there,
    which has none of the conversions. The constructors consult the window
    only for a value of the other unit, never for an int or a float. *)
Definition no_output : MainWindow := {|
  current_output_to_frame := fun _ => raise AttributeError;
  current_output_to_time := fun _ => raise AttributeError;
  current_output_to_frame_interval := fun _ => raise AttributeError;
  current_output_to_time_interval := fun _ => raise AttributeError;
|}.

(** [if not hasattr(self, k): self.k = v], as a function of the
    attributes. *)
Definition setdefault (k : string) (v : any) (m : gmap string any) : gmap string any :=
  match m !! k with Some _ => m | None => <[k := v]> m end.

(** The window whose current output is [o]. The conversions of [o] build
    their result from an int or a float, for which the constructors
    consult no window; [no_output] stands there. *)
Definition showing (o : Output.t) : MainWindow := {|
  current_output_to_frame := Output.to_frame no_output o;
  current_output_to_time := Output.to_time no_output o;
  current_output_to_frame_interval := Output.to_frame_interval no_output o;
  current_output_to_time_interval := Output.to_time_interval no_output o;
|}.

(** ** class MainWindow *)

Module MainWindow.
(** The keyword argument [render_frame] of [switch_frame]: a bool, or a
    tuple of frames already fetched. *)
Inductive render_frame_arg :=
| a_bool (b : bool)
| a_tuple (frames : list any).

(** [if render_frame:] a tuple is true unless it is empty. *)
Definition __bool__ (render_frame : render_frame_arg) : bool :=
  match render_frame with
  | a_bool b => b
  | a_tuple frames => negb (bool_decide (frames = []))
  end.

Section switch_frame.
(** The body of [Output.render_frame], the value of [self.display_profile],
    and the updates of the timeline, the toolbars and the status bar for
    the new frame: these are not among the sources and are given by
    their outcome. The widgets are handed the frame and are taken to
    assign nothing to the output. *)
Context (rendering : any -> result unit) (display_profile : any)
  (widgets : Frame -> result unit).

(** [switch_frame]. The current output is given and handed back as the
    assignments leave it, also when an exception ends the call. *)
Definition switch_frame (current_output : Output.t) (pos : any)
    (render_frame : render_frame_arg) : result unit * Output.t :=
  match pos with
  | PyNone => (Ok tt, current_output)
  | _ =>
      match Frame.__init__ (showing current_output) pos with
      | Error e => (Error e, current_output)
      | Ok frame =>
          match Frame.__init__ (showing current_output) (PyFrame frame) with
          | Error e => (Error e, current_output)
          | Ok to_show =>
              let current_output :=
                Output.set_storable current_output "frame_to_show" (PyFrame to_show) in
              match Output.end_frame current_output with
              | None => (raise_msg AttributeError "end_frame", current_output)
              | Some end_frame =>
                  match YAMLObjectWrapper.__gt__ frame end_frame with
                  | Error e => (Error e, current_output)
                  | Ok true => (Ok tt, current_output)
                  | Ok false =>
                      let rendered :=
                        if __bool__ render_frame then
                          match render_frame with
                          | a_tuple frames =>
                              Output.render_frame rendering current_output
                                (PyFrame frame :: frames)
                                [("output_colorspace", display_profile)]
                          | a_bool _ =>
                              Output.render_frame rendering current_output
                                [PyFrame frame]
                                [("output_colorspace", display_profile)]
                          end
                        else Ok tt in
                      match rendered with
                      | Error e => (Error e, current_output)
                      | Ok _ =>
                          let current_output :=
                            Output.set_storable current_output
                              "last_showed_frame" (PyFrame frame) in
                          (widgets frame, current_output)
                      end
                  end
              end
          end
      end
  end.
End switch_frame.

(** [on_wheel_scrolled]: the index handed to [setCurrentIndex], from the
    current index of the zoom combobox, the steps of the wheel and
    [len(zoom_levels)]. *)
Definition on_wheel_scrolled (current_index steps len_zoom_levels : Z) : Z :=
  let new_index := current_index + steps in
  if new_index <? 0 then 0
  else if new_index >=? len_zoom_levels then len_zoom_levels - 1
  else new_index.
End MainWindow.

(** ** class PipetteToolbar *)

Module PipetteToolbar.
(** [clip]: [max(lower_bound, min(value, upper_bound))]. On two
    arguments [min] keeps the first unless the second is smaller, and
    [max] keeps the first unless the second is greater. *)
Definition min (a b : float.t) : float.t := if SFltb b a then b else a.
Definition max (a b : float.t) : float.t := if SFltb a b then b else a.

Definition clip (value lower_bound upper_bound : float.t) : float.t :=
  max lower_bound (min value upper_bound).

Inductive sample_type := INTEGER | FLOAT.

Global Instance sample_type_eq_dec : EqDecision sample_type.
Proof. solve_decision. Defined.

Inductive ctype := c_uint8 | c_uint16 | c_float.

(** [data_types[sample_type][bytes_per_sample]] *)
Definition data_types (st : sample_type) (bytes_per_sample : Z) : result ctype :=
  match st with
  | INTEGER =>
      if bytes_per_sample =? 1 then Ok c_uint8
      else if bytes_per_sample =? 2 then Ok c_uint16
      else raise_msg KeyError (str bytes_per_sample)
  | FLOAT =>
      if bytes_per_sample =? 4 then Ok c_float
      else raise_msg KeyError (str bytes_per_sample)
  end.

(** Where [extract_value] reads the sample of position [(x, y)] in a plane
    of the given stride: the two bytes from [offset] on for a half float,
    the element [idx] of the plane seen as an array of its data type
    otherwise. *)
Inductive location :=
| bytes_from (offset : Z)
| element (ty : ctype) (idx : Z).

(** [a // b] on two ints. *)
Definition floordiv (a b : Z) : result Z :=
  if b =? 0 then raise_msg ZeroDivisionError "integer division or modulo by zero"
  else Ok (a / b).

Definition extract_value (st : sample_type) (bytes_per_sample stride x y : Z)
    : result location :=
  if bool_decide (st = FLOAT) && (bytes_per_sample =? 2)
  then Ok (bytes_from (y * stride + x * 2))
  else
    ty ← data_types st bytes_per_sample;
    logical_stride ← floordiv stride bytes_per_sample;
    Ok (element ty (y * logical_stride + x)).
End PipetteToolbar.

(** ** Sample data *)

Module sample.
(** A clip of 10 frames at 24/1 fps, one of variable frame rate (0/1
    fps), and audio nodes at 48000 Hz and at 0 Hz. *)
Definition clip24 : VideoOutputTuple :=
  {| num_frames := 10; fps_numerator := 24; fps_denominator := 1; props_Name := None |}.
Definition clip_vfr : VideoOutputTuple :=
  {| num_frames := 10; fps_numerator := 0; fps_denominator := 1; props_Name := None |}.
Definition audio48k : AudioNode :=
  {| audio_num_frames := 100; sample_rate := 48000; num_channels := 2;
     format_supported := true |}.
Definition audio0 : AudioNode :=
  {| audio_num_frames := 100; sample_rate := 0; num_channels := 2;
     format_supported := true |}.

(** The floats [0.99], [0.99 / 16], [1.0], [2.0], [16.0], [24.0] and
    [-1.0], as sign, mantissa and binary exponent. *)
Definition f0_99 : float.t := S754_finite false 8917127262193582 (-53).
Definition f0_99_over_16 : float.t := S754_finite false 8917127262193582 (-57).
Definition f1_0 : float.t := S754_finite false 4503599627370496 (-52).
Definition f2_0 : float.t := S754_finite false 4503599627370496 (-51).
Definition f16_0 : float.t := S754_finite false 4503599627370496 (-48).
Definition f24_0 : float.t := S754_finite false 6755399441055744 (-48).
Definition minus_1_0 : float.t := S754_finite true 4503599627370496 (-52).

(** The audio output that [__init__] builds from [audio48k]. *)
Definition audio16 : AudioOutput.t :=
  {| AudioOutput.name := "Audio Output 0"; AudioOutput.index := 0;
     AudioOutput.fps_num := 48000; AudioOutput.fps_den := 3000;
     AudioOutput.fps := f16_0; AudioOutput.total_frames := wrap 100;
     AudioOutput.total_time := Some (wrap (Timedelta 6187500));
     AudioOutput.end_frame := Some (wrap 99);
     AudioOutput.end_time := Some (wrap (Timedelta 6187500)) |}.

(** The video output that [__init__] builds from [clip24] on a fresh
    object. *)
Definition video24 : Output.t :=
  {| Output.storable :=
       {[ "name" := PyStr "Output 0";
          "last_showed_frame" := PyFrame (wrap 0);
          "scening_lists" := PySceningLists [];
          "play_fps" := PyFloat f24_0;
          "frame_to_show" := PyNone ]};
     Output.index := 0; Output.fps_num := 24; Output.fps_den := 1;
     Output.fps := f24_0; Output.total_frames := wrap 10;
     Output.total_time := Some (wrap (Timedelta 375000));
     Output.end_frame := Some (wrap 9);
     Output.end_time := Some (wrap (Timedelta 375000)) |}.

(** A video and an audio output as they are inside [__init__] right
    after the assignment of [self.fps], for a given frame rate. *)
Definition video_at (fps_num fps_den : Z) (fps : float.t) : Output.t :=
  {| Output.storable := ∅; Output.index := 0; Output.fps_num := fps_num;
     Output.fps_den := fps_den; Output.fps := fps;
     Output.total_frames := wrap 10; Output.total_time := None;
     Output.end_frame := None; Output.end_time := None |}.

Definition audio_at (fps_num : Z) (fps : float.t) : AudioOutput.t :=
  {| AudioOutput.name := "Audio Output 0"; AudioOutput.index := 0;
     AudioOutput.fps_num := fps_num;
     AudioOutput.fps_den := AudioOutput.SAMPLES_PER_FRAME;
     AudioOutput.fps := fps; AudioOutput.total_frames := wrap 100;
     AudioOutput.total_time := None; AudioOutput.end_frame := None;
     AudioOutput.end_time := None |}.

(** A stored record whose last showed frame lies past the end of
    [clip24] and whose play fps is the float [-1.0]. *)
Definition stale_state : gmap string any :=
  {[ "name" := PyStr "x";
     "last_showed_frame" := PyFrame (wrap 100);
     "play_fps" := PyFloat minus_1_0;
     "scening_lists" := PySceningLists [] ]}.
End sample.

(** * Properties *)

(** ** The result monad *)

Lemma result_bind_ok {A B} (m : result A) (k : A -> result B) (b : B) :
  m ≫= k = Ok b -> exists a, m = Ok a /\ k a = Ok b.
Proof. destruct m as [a|e]; simpl; [eauto|discriminate]. Qed.

(** ** The float model on the sample values *)

Lemma sample_floats :
  float.int_truediv 99 100 = Ok sample.f0_99
  /\ float.truediv_int sample.f0_99 16 = Ok sample.f0_99_over_16
  /\ float.of_int 1 = Ok sample.f1_0
  /\ float.of_int 2 = Ok sample.f2_0
  /\ float.int_truediv 48000 3000 = Ok sample.f16_0
  /\ float.int_truediv 24 1 = Ok sample.f24_0
  /\ float.of_int (-1) = Ok sample.minus_1_0.
Proof. repeat split; vm_compute; reflexivity. Qed.

Lemma sample_audio16 :
  AudioOutput.__init__ no_output None sample.audio48k 0 = Ok sample.audio16.
Proof. vm_compute. reflexivity. Qed.

(** ** Comparisons of wrappers *)

Section wrapper_facts.
Context {tag1 tag2 : string}.
Implicit Types (x : YAMLObjectWrapper tag1 Z) (y : YAMLObjectWrapper tag2 Z).

Lemma int_eq x y : YAMLObjectWrapper.__eq__ x y = (value x =? value y).
Proof. reflexivity. Qed.

Lemma int_gt x y : YAMLObjectWrapper.__gt__ x y = Ok (value y <? value x).
Proof. unfold YAMLObjectWrapper.__gt__. simpl. by rewrite Z.gtb_ltb. Qed.

Lemma int_le x y : YAMLObjectWrapper.__le__ x y = Ok (value x <=? value y).
Proof.
  unfold YAMLObjectWrapper.__le__. rewrite int_gt. simpl.
  by rewrite Z.leb_antisym.
Qed.

Lemma int_ge x y : YAMLObjectWrapper.__ge__ x y = Ok (value y <=? value x).
Proof.
  unfold YAMLObjectWrapper.__ge__. rewrite int_eq, int_gt.
  destruct (Z.eqb_spec (value x) (value y)) as [->|Hne].
  - by rewrite Z.leb_refl.
  - f_equal. destruct (Z.ltb_spec (value y) (value x)), (Z.leb_spec (value y) (value x));
      (reflexivity || lia).
Qed.

Lemma int_lt x y : YAMLObjectWrapper.__lt__ x y = Ok (value x <? value y).
Proof.
  unfold YAMLObjectWrapper.__lt__. rewrite int_ge. simpl.
  by rewrite Z.ltb_antisym.
Qed.
End wrapper_facts.

Lemma py_eq_refl (b : builtin) : py_eq b b = true.
Proof. destruct b; simpl; apply Z.eqb_refl. Qed.

(** C8. The comparisons of two Frames are those of their values: [==] and
    [>] read the slots, [!=], [<=], [>=] and [<] are derived from them, and
    together they order the Frames strictly and totally: exactly one of
    [a < b], [a == b], [a > b] holds, [<] is irreflexive and transitive,
    and [a < b] is [b > a]. *)
Theorem Frame_strict_total_order (a b c : Frame) :
  (exists lt eq gt : bool,
      YAMLObjectWrapper.__lt__ a b = Ok lt
      /\ YAMLObjectWrapper.__eq__ a b = eq
      /\ YAMLObjectWrapper.__gt__ a b = Ok gt
      /\ YAMLObjectWrapper.__ne__ a b = negb eq
      /\ YAMLObjectWrapper.__le__ a b = Ok (negb gt)
      /\ YAMLObjectWrapper.__ge__ a b = Ok (eq || gt)
      /\ lt = negb (eq || gt)
      /\ ((lt = true /\ eq = false /\ gt = false)
          \/ (lt = false /\ eq = true /\ gt = false)
          \/ (lt = false /\ eq = false /\ gt = true)))
  /\ YAMLObjectWrapper.__lt__ a a = Ok false
  /\ (YAMLObjectWrapper.__lt__ a b = Ok true ->
      YAMLObjectWrapper.__lt__ b c = Ok true ->
      YAMLObjectWrapper.__lt__ a c = Ok true)
  /\ (YAMLObjectWrapper.__lt__ a b = Ok true <-> YAMLObjectWrapper.__gt__ b a = Ok true)
  /\ (YAMLObjectWrapper.__eq__ a b = true <-> value a = value b).
Proof.
  destruct a as [x], b as [y], c as [z].
  rewrite !int_lt, !int_gt, !int_eq. simpl.
  split; [|split; [|split; [|split]]].
  - exists (x <? y), (x =? y), (y <? x).
    rewrite int_le, int_ge. unfold YAMLObjectWrapper.__ne__. rewrite int_eq. simpl.
    destruct (Z.ltb_spec x y), (Z.eqb_spec x y), (Z.ltb_spec y x),
      (Z.leb_spec x y), (Z.leb_spec y x); try lia; simpl; tauto.
  - by rewrite Z.ltb_irrefl.
  - intros Hab Hbc. f_equal.
    injection Hab as Hab. injection Hbc as Hbc.
    apply Z.ltb_lt in Hab, Hbc. apply Z.ltb_lt. lia.
  - tauto.
  - apply Z.eqb_eq.
Qed.

Lemma Frame_strict_total_order_witness :
  YAMLObjectWrapper.__lt__ (wrap 2 : Frame) (wrap 7 : Frame) = Ok true.
Proof.
  apply (Frame_strict_total_order (wrap 2) (wrap 5) (wrap 7)); reflexivity.
Defined.

Lemma py_eq_iff (a b : builtin) : py_eq a b = true <-> a = b.
Proof.
  destruct a as [m|[c]], b as [n|[d]]; simpl; try done.
  - rewrite Z.eqb_eq. split; [by intros ->|by intros [= ->]].
  - rewrite Z.eqb_eq. split; [by intros ->|by intros [= ->]].
Qed.

(** C10. [==] between wrappers reads the two [value] slots and nothing
    else: two instances of any two wrapper classes are equal exactly when
    their slots hold equal values, whatever the classes, and [!=] is the
    negation. So [Frame(n) == FrameInterval(n)] for every int [n >= 0],
    while [Frame(n) == FrameInterval(m)] is false for [m] other than [n];
    two wrappers of an int are equal exactly when the ints are, two
    wrappers of a [timedelta] exactly when the durations are, and a
    wrapper of an int never equals a wrapper of a [timedelta]. *)
Theorem eq_ignores_unit_type (main_window : MainWindow) :
  (forall n : Z, 0 <= n ->
     exists (f : Frame) (d : FrameInterval),
       Frame.__init__ main_window (PyInt n) = Ok f
       /\ FrameInterval.__init__ main_window (PyInt n) = Ok d
       /\ YAMLObjectWrapper.__eq__ f d = true
       /\ YAMLObjectWrapper.__eq__ d f = true
       /\ forall m : Z,
            exists d' : FrameInterval,
              FrameInterval.__init__ main_window (PyInt m) = Ok d'
              /\ (YAMLObjectWrapper.__eq__ f d' = true <-> n = m)
              /\ (YAMLObjectWrapper.__eq__ f d' = false <-> n <> m))
  /\ (forall (tag1 tag2 : string) (V1 V2 : Type) `(Wrapped V1) `(Wrapped V2)
        (x : YAMLObjectWrapper tag1 V1) (y : YAMLObjectWrapper tag2 V2),
        (YAMLObjectWrapper.__eq__ x y = true <-> slot (value x) = slot (value y))
        /\ YAMLObjectWrapper.__ne__ x y = negb (YAMLObjectWrapper.__eq__ x y))
  /\ (forall (tag1 tag2 : string) (V : Type) `(Wrapped V)
        (x : YAMLObjectWrapper tag1 V) (y : YAMLObjectWrapper tag2 V),
        value x = value y -> YAMLObjectWrapper.__eq__ x y = true)
  /\ (forall (tag1 tag2 : string)
        (x : YAMLObjectWrapper tag1 Z) (y : YAMLObjectWrapper tag2 Z),
        YAMLObjectWrapper.__eq__ x y = true <-> value x = value y)
  /\ (forall (tag1 tag2 : string)
        (x : YAMLObjectWrapper tag1 timedelta) (y : YAMLObjectWrapper tag2 timedelta),
        YAMLObjectWrapper.__eq__ x y = true <-> value x = value y)
  /\ (forall (tag1 tag2 : string)
        (x : YAMLObjectWrapper tag1 Z) (y : YAMLObjectWrapper tag2 timedelta),
        YAMLObjectWrapper.__eq__ x y = false /\ YAMLObjectWrapper.__eq__ y x = false).
Proof.
  split_and!.
  - intros n Hn. exists (wrap n), (wrap n). simpl.
    destruct (Z.ltb_spec n 0); [lia|].
    rewrite !int_eq. simpl. rewrite Z.eqb_refl. split_and!; try done.
    intros m. exists (wrap m). split; [done|].
    rewrite int_eq. simpl. by destruct (Z.eqb_spec n m).
  - intros tag1 tag2 V1 V2 W1 W2 x y. split; [|done].
    unfold YAMLObjectWrapper.__eq__. apply py_eq_iff.
  - intros tag1 tag2 V W x y Hxy.
    unfold YAMLObjectWrapper.__eq__. rewrite Hxy. apply py_eq_refl.
  - intros tag1 tag2 x y. rewrite int_eq. apply Z.eqb_eq.
  - intros tag1 tag2 [[c]] [[d]]. unfold YAMLObjectWrapper.__eq__. simpl.
    rewrite Z.eqb_eq. split; [by intros ->|by intros [= ->]].
  - done.
Qed.

Lemma eq_ignores_unit_type_witness :
  exists (f : Frame) (d : FrameInterval),
    Frame.__init__ no_output (PyInt 3) = Ok f
    /\ FrameInterval.__init__ no_output (PyInt 3) = Ok d
    /\ YAMLObjectWrapper.__eq__ f d = true
    /\ YAMLObjectWrapper.__eq__ d f = true
    /\ forall m : Z,
         exists d' : FrameInterval,
           FrameInterval.__init__ no_output (PyInt m) = Ok d'
           /\ (YAMLObjectWrapper.__eq__ f d' = true <-> 3 = m)
           /\ (YAMLObjectWrapper.__eq__ f d' = false <-> 3 <> m).
Proof.
  apply (eq_ignores_unit_type no_output). lia.
Defined.

(** ** Frame arithmetic *)

Lemma Frame_init_int (main_window : MainWindow) (n : Z) :
  Frame.__init__ main_window (PyInt n)
  = if n <? 0 then raise ValueError else Ok (wrap n).
Proof. reflexivity. Qed.




(** C2. [Frame(n)] wraps [n] for every int [n >= 0], and so for every
    instance of [int] that is not negative; a negative int is refused with
    [ValueError]; a value that is not an instance of [int], [Frame] or
    [Time] is refused with [TypeError]. Construction from an int succeeds
    exactly when the int is not negative. *)
Theorem Frame_init_domain (main_window : MainWindow) :
  (forall n : Z, 0 <= n ->
     exists f : Frame,
       Frame.__init__ main_window (PyInt n) = Ok f /\ value f = n
       /\ Frame.invariant f)
  /\ (forall n : Z, n < 0 ->
        Frame.__init__ main_window (PyInt n) = raise ValueError)
  /\ (forall v : any, isinstance v cls_int = true ->
        if int_value v <? 0
        then Frame.__init__ main_window v = raise ValueError
        else Frame.__init__ main_window v = Ok (wrap (int_value v)))
  /\ (forall v : any,
        isinstance v cls_int = false ->
        isinstance v cls_Frame = false ->
        isinstance v cls_Time = false ->
        Frame.__init__ main_window v = raise TypeError)
  /\ (forall n : Z, is_ok (Frame.__init__ main_window (PyInt n)) = true <-> 0 <= n).
Proof.
  split; [|split; [|split; [|split]]].
  - intros n Hn. exists (wrap n). rewrite Frame_init_int.
    destruct (Z.ltb_spec n 0); [lia|]. by repeat split.
  - intros n Hn. rewrite Frame_init_int.
    destruct (Z.ltb_spec n 0); [reflexivity|lia].
  - intros v Hv. destruct v; try discriminate Hv; simpl.
    + destruct b; reflexivity.
    + destruct (n <? 0); reflexivity.
  - intros v Hint HFrame HTime.
    destruct v; try discriminate; reflexivity.
  - intros n. rewrite Frame_init_int.
    destruct (Z.ltb_spec n 0); simpl; split; (lia || congruence || done).
Qed.

Lemma Frame_init_domain_witness :
  (exists f : Frame, Frame.__init__ no_output (PyInt 7) = Ok f /\ value f = 7
                     /\ Frame.invariant f)
  /\ Frame.__init__ no_output (PyInt (-1)) = raise ValueError
  /\ Frame.__init__ no_output (PyStr "7") = raise TypeError.
Proof.
  split; [|split].
  - apply (Frame_init_domain no_output). lia.
  - apply (Frame_init_domain no_output). lia.
  - apply (Frame_init_domain no_output); reflexivity.
Defined.

(** C9. For [d.value > a.value], [a - d] raises [ValueError], the result
    being passed through the constructor, and no slot of [a] is assigned;
    [a -= d] checks nothing and leaves the same object [a] wrapping the
    negative int [a.value - d.value], which the constructor would refuse:
    the invariant of Frame is broken. *)
Theorem Frame_sub_checks_isub_does_not (main_window : MainWindow)
    (σ : gmap positive Frame) (l : positive) (a : Frame) (d : FrameInterval) :
  σ !! l = Some a ->
  value d > value a ->
  Frame.__sub__ main_window a (PyFrameInterval d) = raise ValueError
  /\ Store.sub main_window σ l d = (raise ValueError, σ)
  /\ Store.isub σ l d = (Ok tt, <[l := wrap (value a - value d)]> σ)
  /\ (forall a' : Frame, snd (Store.isub σ l d) !! l = Some a' ->
        value a' = value a - value d /\ value a' < 0 /\ ~ Frame.invariant a'
        /\ Frame.__init__ main_window (PyInt (value a')) = raise ValueError).
Proof.
  intros Hl Hgt.
  assert (Hsub : Frame.__sub__ main_window a (PyFrameInterval d) = raise ValueError).
  { unfold Frame.__sub__. rewrite Frame_init_int.
    destruct (Z.ltb_spec (value a - value d) 0); [reflexivity|lia]. }
  split; [exact Hsub|].
  unfold Store.sub, Store.isub. rewrite Hl, Hsub.
  split; [reflexivity|]. split; [reflexivity|].
  simpl. rewrite lookup_insert_eq. intros a' [= <-].
  unfold Frame.invariant, Frame.__isub__. simpl.
  destruct (Z.ltb_spec (value a - value d) 0); [|lia].
  repeat split; lia.
Qed.

Lemma Frame_sub_checks_isub_does_not_witness :
  Frame.__sub__ no_output (wrap 3) (PyFrameInterval (wrap 5)) = raise ValueError
  /\ Store.sub no_output {[ 1%positive := wrap 3 ]} 1 (wrap 5)
     = (raise ValueError, {[ 1%positive := wrap 3 ]})
  /\ Store.isub {[ 1%positive := wrap 3 ]} 1 (wrap 5)
     = (Ok tt, <[1%positive := wrap (3 - 5)]> {[ 1%positive := wrap 3 ]})
  /\ (forall a' : Frame,
        snd (Store.isub {[ 1%positive := wrap 3 ]} 1 (wrap 5)) !! 1%positive = Some a' ->
        value a' = 3 - 5 /\ value a' < 0 /\ ~ Frame.invariant a'
        /\ Frame.__init__ no_output (PyInt (value a')) = raise ValueError).
Proof.
  apply (Frame_sub_checks_isub_does_not no_output {[ 1%positive := wrap 3 ]} 1
           (wrap 3) (wrap 5)).
  - reflexivity.
  - simpl. lia.
Defined.

(** ** Scene *)

Lemma Scene_init_both (a b : Frame) (l : string) :
  Scene.__init__ (Some a) (Some b) l
  = Ok (if value b <? value a
        then {| start := b; end_ := a; label := l |}
        else {| start := a; end_ := b; label := l |}).
Proof.
  unfold Scene.__init__. simpl. rewrite Z.gtb_ltb.
  by destruct (value b <? value a).
Qed.

Lemma Scene_init_one (a : Frame) (l : string) :
  Scene.__init__ (Some a) None l = Ok {| start := a; end_ := a; label := l |}
  /\ Scene.__init__ None (Some a) l = Ok {| start := a; end_ := a; label := l |}.
Proof.
  unfold Scene.__init__. simpl. rewrite Z.gtb_ltb.
  by rewrite Z.ltb_irrefl.
Qed.

(** C3. Every constructed Scene has [start <= end]: two endpoints out of
    order are swapped, so that [Scene(Frame(5), Frame(2), label)] has
    [start = Frame(2)] and [end = Frame(5)]; one endpoint alone is used for
    both; no endpoint at all is a [ValueError]. *)
Theorem Scene_init_start_le_end :
  (forall (s0 e0 : option Frame) (l : string) (sc : Scene),
      Scene.__init__ s0 e0 l = Ok sc ->
      YAMLObjectWrapper.__le__ (start sc) (end_ sc) = Ok true
      /\ value (start sc) <= value (end_ sc))
  /\ (forall (a b : Frame) (l : string),
        exists sc : Scene,
          Scene.__init__ (Some a) (Some b) l = Ok sc
          /\ label sc = l
          /\ (value a > value b -> start sc = b /\ end_ sc = a)
          /\ (value a <= value b -> start sc = a /\ end_ sc = b))
  /\ (forall l : string,
        Scene.__init__ (Some (wrap 5)) (Some (wrap 2)) l
        = Ok {| start := wrap 2; end_ := wrap 5; label := l |})
  /\ (forall (a : Frame) (l : string),
        Scene.__init__ (Some a) None l = Ok {| start := a; end_ := a; label := l |}
        /\ Scene.__init__ None (Some a) l = Ok {| start := a; end_ := a; label := l |})
  /\ (forall l : string, Scene.__init__ None None l = raise ValueError).
Proof.
  split; [|split; [|split; [|split]]].
  - intros s0 e0 l sc Hsc. rewrite int_le.
    assert (value (start sc) <= value (end_ sc)) as Hle.
    { destruct s0 as [a|], e0 as [b|].
      - rewrite Scene_init_both in Hsc. injection Hsc as <-.
        destruct (Z.ltb_spec (value b) (value a)); simpl; lia.
      - destruct (Scene_init_one a l) as [H _]. rewrite H in Hsc.
        injection Hsc as <-. simpl. lia.
      - destruct (Scene_init_one b l) as [_ H]. rewrite H in Hsc.
        injection Hsc as <-. simpl. lia.
      - discriminate Hsc. }
    split; [|exact Hle]. f_equal. by apply Z.leb_le.
  - intros a b l. rewrite Scene_init_both.
    destruct (Z.ltb_spec (value b) (value a)); eexists; (split; [reflexivity|]);
      simpl; repeat split; lia.
  - intros l. reflexivity.
  - intros a l. apply Scene_init_one.
  - intros l. reflexivity.
Qed.

Lemma Scene_init_start_le_end_witness :
  YAMLObjectWrapper.__le__
    (start {| start := wrap 2; end_ := wrap 5; label := "x" |})
    (end_ {| start := wrap 2; end_ := wrap 5; label := "x" |}) = Ok true
  /\ value (start {| start := wrap 2; end_ := wrap 5; label := "x" |})
     <= value (end_ {| start := wrap 2; end_ := wrap 5; label := "x" |}).
Proof.
  apply (proj1 Scene_init_start_le_end (Some (wrap 5)) (Some (wrap 2)) "x").
  reflexivity.
Defined.

Lemma Scene_lacks_fields :
  Scene.lacks_fields
  = "Scene lacks one or more of its fields. It's most probably corrupted. Check those: start, end, label.".
Proof. reflexivity. Qed.

(** C7, as stated, fails on a record with two defects. With [start] an int
    and [end] absent, the error is the [TypeError] about [start], which
    does not name [end]; with [start] absent and [end] an int, the error is
    the [KeyError], not a [TypeError]. *)
Lemma Scene_setstate_two_defects :
  (let state : gmap string any := {[ "start" := PyInt 5; "label" := PyStr "x" ]} in
   ~ (state !! "end" = None -> raises (Scene.__setstate__ state) KeyError))
  /\ (let state : gmap string any := {[ "end" := PyInt 5; "label" := PyStr "x" ]} in
      ~ (state !! "end" = Some (PyInt 5) -> raises (Scene.__setstate__ state) TypeError)).
Proof.
  split; intros state H.
  - destruct H as [msg Hmsg]; [reflexivity|]. vm_compute in Hmsg. discriminate Hmsg.
  - destruct H as [msg Hmsg]; [reflexivity|]. vm_compute in Hmsg. discriminate Hmsg.
Qed.

(** C7, amended. [Scene.__setstate__] checks [start], [end] and [label] in
    this order, and the first check that fails decides the error: an absent
    field raises the [KeyError] that names [start, end, label], a present
    field of the wrong class raises the [TypeError] about that field. A
    record that passes the three checks is handed to the constructor as it
    is; whenever a Scene results, its label and endpoints are those of the
    record. *)
Theorem Scene_setstate_first_failure (state : gmap string any) :
  match state !! "start" with
  | None => Scene.__setstate__ state = raise_msg KeyError Scene.lacks_fields
  | Some (PyFrame s) =>
      match state !! "end" with
      | None => Scene.__setstate__ state = raise_msg KeyError Scene.lacks_fields
      | Some (PyFrame e) =>
          match state !! "label" with
          | None => Scene.__setstate__ state = raise_msg KeyError Scene.lacks_fields
          | Some (PyStr l) =>
              Scene.__setstate__ state = Scene.__init__ (Some s) (Some e) l
              /\ exists sc : Scene,
                   Scene.__setstate__ state = Ok sc /\ label sc = l
                   /\ ((start sc = s /\ end_ sc = e) \/ (start sc = e /\ end_ sc = s))
          | Some _ =>
              Scene.__setstate__ state
              = raise_msg TypeError
                  "Label of Scene is not a string. It's most probably corrupted."
          end
      | Some _ =>
          Scene.__setstate__ state
          = raise_msg TypeError
              "End frame of Scene is not a Frame. It's most probably corrupted."
      end
  | Some _ =>
      Scene.__setstate__ state
      = raise_msg TypeError
          "Start frame of Scene is not a Frame. It's most probably corrupted."
  end.
Proof.
  unfold Scene.__setstate__, getitem.
  destruct (state !! "start") as [[]|]; try reflexivity.
  destruct (state !! "end") as [[]|]; try reflexivity.
  destruct (state !! "label") as [[]|]; try reflexivity.
  simpl. split; [reflexivity|].
  rewrite Scene_init_both.
  destruct (value f0 <? value f); eexists; (split; [reflexivity|]); simpl; tauto.
Qed.

(** ** Conversions between seconds and frames *)

Lemma exact_den_pos (x : float.t) : 0 < (float.exact x).2.
Proof. destruct x; simpl; try lia; apply Z.pow_pos_nonneg; lia. Qed.

(** [math.floor] returns, for a finite float and for no other, the int
    [n] with [n <= x < n + 1]. *)
Lemma floor_exact (x : float.t) (n : Z) :
  float.floor x = Ok n ->
  float.is_finite x = true
  /\ n * (float.exact x).2 <= (float.exact x).1 < (n + 1) * (float.exact x).2.
Proof.
  destruct x as [s|s| |s m e]; try (by destruct s); try done.
  - intros [= <-]. simpl. lia.
  - unfold float.floor, float.exact. cbn [fst snd].
    destruct (Z.leb_spec 0 e) as [He|He]; intros [= <-]; (split; [done|]).
    + rewrite (Z.max_r 0 e), (Z.max_l 0 (- e)) by lia. rewrite Z.pow_0_r.
      destruct s; cbn [cond_Zopp]; rewrite ?Z.mul_opp_l; lia.
    + rewrite (Z.max_l 0 e), (Z.max_r 0 (- e)) by lia. rewrite Z.pow_0_r, Z.mul_1_r.
      assert (0 < 2 ^ (- e)) as Hd by (apply Z.pow_pos_nonneg; lia).
      pose proof (Z.div_mod (cond_Zopp s (Z.pos m)) (2 ^ (- e)) ltac:(lia)) as Hdm.
      pose proof (Z.mod_pos_bound (cond_Zopp s (Z.pos m)) (2 ^ (- e)) Hd) as Hb.
      nia.
Qed.

Lemma floor_total (x : float.t) :
  float.is_finite x = true -> exists n, float.floor x = Ok n.
Proof.
  destruct x as [s|s| |s m e]; try done; intros _; [by exists 0|].
  unfold float.floor. destruct (0 <=? e); by eexists.
Qed.

(** [round] returns, for a finite float and for no other, an int [n]
    with [|x - n| <= 1/2]. *)
Lemma round_exact (x : float.t) (n : Z) :
  float.round x = Ok n ->
  float.is_finite x = true
  /\ Z.abs (2 * ((float.exact x).1 - n * (float.exact x).2)) <= (float.exact x).2.
Proof.
  destruct x as [s|s| |s m e]; try (by destruct s); try done.
  - intros [= <-]. simpl. lia.
  - unfold float.round, float.exact. cbn [fst snd].
    destruct (Z.leb_spec 0 e) as [He|He].
    + intros [= <-]. split; [done|].
      rewrite (Z.max_r 0 e), (Z.max_l 0 (- e)) by lia. rewrite Z.pow_0_r.
      destruct s; cbn [cond_Zopp]; rewrite ?Z.mul_opp_l; lia.
    + rewrite (Z.max_l 0 e), (Z.max_r 0 (- e)) by lia. rewrite Z.pow_0_r, Z.mul_1_r.
      assert (0 < 2 ^ (- e)) as Hd by (apply Z.pow_pos_nonneg; lia).
      pose proof (Z.div_mod (cond_Zopp s (Z.pos m)) (2 ^ (- e)) ltac:(lia)) as Hdm.
      pose proof (Z.mod_pos_bound (cond_Zopp s (Z.pos m)) (2 ^ (- e)) Hd) as Hb.
      cbv zeta.
      destruct (Z.compare_spec (2 * (cond_Zopp s (Z.pos m) mod 2 ^ (- e))) (2 ^ (- e)));
        [destruct (Z.even _)|..]; intros [= <-]; (split; [done|]); nia.
Qed.

(** C4. The audio output floors where the video output rounds. For
    every audio output and every Time, the Frame that [to_frame] returns
    is the floor of the product of the seconds and the fps: it does not
    exceed the product and is less than one below it, so the conversion
    never overshoots; and [to_frame] returns whenever that product is
    finite and not negative. The Frame that the [to_frame] of a video
    output returns is within one half of the product. At 16 fps (48000
    samples per second, 3000 samples per frame) the audio output takes
    [Time(seconds=0.99/16)] to a Frame that does not exceed [Frame(0)],
    namely [Frame(0)], where a video output of the same fps gives
    [Frame(1)]; and it takes [Time(seconds=0.99)] to [Frame(15)], where
    the video output gives [Frame(16)]. *)
Theorem audio_to_frame_floors (main_window : MainWindow)
    (a : AudioOutput.t) (v : Output.t) :
  (forall (t : Time) (f : Frame),
      AudioOutput.to_frame main_window a t = Ok f ->
      exists seconds : float.t,
        Time.__float__ t = Ok seconds
        /\ let product := float.__mul__ seconds (AudioOutput.fps a) in
           float.is_finite product = true
           /\ 0 <= value f
           /\ value f * (float.exact product).2 <= (float.exact product).1
           /\ (float.exact product).1 < (value f + 1) * (float.exact product).2)
  /\ (forall (t : Time) (seconds : float.t),
        Time.__float__ t = Ok seconds ->
        let product := float.__mul__ seconds (AudioOutput.fps a) in
        float.is_finite product = true ->
        0 <= (float.exact product).1 ->
        exists f : Frame, AudioOutput.to_frame main_window a t = Ok f)
  /\ (forall (t : Time) (f : Frame),
        Output.to_frame main_window v t = Ok f ->
        exists seconds : float.t,
          Time.__float__ t = Ok seconds
          /\ let product := float.__mul__ seconds (Output.fps v) in
             float.is_finite product = true
             /\ 0 <= value f
             /\ Z.abs (2 * ((float.exact product).1 - value f * (float.exact product).2))
                <= (float.exact product).2)
  /\ (AudioOutput.fps_num a = 48000 ->
      AudioOutput.fps_den a = 3000 ->
      float.int_truediv (AudioOutput.fps_num a) (AudioOutput.fps_den a)
      = Ok (AudioOutput.fps a) ->
      Output.fps v = AudioOutput.fps a ->
      (exists (x : float.t) (t : Time) (f : Frame),
          (lit ← float.int_truediv 99 100; float.truediv_int lit 16) = Ok x
          /\ Time.__init__ main_window PyNone (Some (PyFloat x)) = Ok t
          /\ AudioOutput.to_frame main_window a t = Ok f
          /\ YAMLObjectWrapper.__gt__ f (wrap 0 : Frame) = Ok false
          /\ YAMLObjectWrapper.__le__ f (wrap 0 : Frame) = Ok true
          /\ f = wrap 0
          /\ Output.to_frame main_window v t = Ok (wrap 1))
      /\ (exists (x : float.t) (t : Time),
            float.int_truediv 99 100 = Ok x
            /\ Time.__init__ main_window PyNone (Some (PyFloat x)) = Ok t
            /\ AudioOutput.to_frame main_window a t = Ok (wrap 15)
            /\ Output.to_frame main_window v t = Ok (wrap 16))).
Proof.
  split_and!.
  - intros t f Hf. unfold AudioOutput.to_frame in Hf.
    apply result_bind_ok in Hf as (seconds & Hs & Hf).
    apply result_bind_ok in Hf as (n & Hn & Hf).
    exists seconds. split; [done|]. cbv zeta.
    apply floor_exact in Hn as (Hfin & Hlo & Hhi).
    rewrite Frame_init_int in Hf.
    destruct (Z.ltb_spec n 0); [discriminate|]. injection Hf as <-. done.
  - intros t seconds Hs product Hfin Hnum. subst product.
    destruct (floor_total _ Hfin) as [n Hn].
    unfold AudioOutput.to_frame, AudioOutput._calculate_frame. rewrite Hs. simpl.
    rewrite Hn. simpl.
    apply floor_exact in Hn as (_ & _ & Hhi).
    pose proof (exact_den_pos (float.__mul__ seconds (AudioOutput.fps a))) as Hden.
    destruct (Z.ltb_spec n 0); [nia|]. by eexists.
  - intros t f Hf. unfold Output.to_frame in Hf.
    apply result_bind_ok in Hf as (seconds & Hs & Hf).
    apply result_bind_ok in Hf as (n & Hn & Hf).
    exists seconds. split; [done|]. cbv zeta.
    apply round_exact in Hn as (Hfin & Hn).
    rewrite Frame_init_int in Hf.
    destruct (Z.ltb_spec n 0); [discriminate|]. injection Hf as <-. done.
  - intros Hnum Hden Hfps Hv.
    rewrite Hnum, Hden in Hfps.
    destruct sample_floats as (_ & _ & _ & _ & H16 & _).
    rewrite H16 in Hfps. injection Hfps as Hfps.
    split.
    + exists sample.f0_99_over_16, (wrap (Timedelta 61875)), (wrap 0).
      split; [vm_compute; reflexivity|].
      split; [vm_compute; reflexivity|].
      unfold AudioOutput.to_frame, AudioOutput._calculate_frame,
        Output.to_frame, Output._calculate_frame.
      rewrite Hv, <- Hfps.
      repeat split; vm_compute; reflexivity.
    + exists sample.f0_99, (wrap (Timedelta 990000)).
      split; [vm_compute; reflexivity|].
      split; [vm_compute; reflexivity|].
      unfold AudioOutput.to_frame, AudioOutput._calculate_frame,
        Output.to_frame, Output._calculate_frame.
      rewrite Hv, <- Hfps.
      split; vm_compute; reflexivity.
Qed.

Lemma audio_to_frame_floors_witness :
  (exists (x : float.t) (t : Time) (f : Frame),
      (lit ← float.int_truediv 99 100; float.truediv_int lit 16) = Ok x
      /\ Time.__init__ no_output PyNone (Some (PyFloat x)) = Ok t
      /\ AudioOutput.to_frame no_output sample.audio16 t = Ok f
      /\ YAMLObjectWrapper.__gt__ f (wrap 0 : Frame) = Ok false
      /\ YAMLObjectWrapper.__le__ f (wrap 0 : Frame) = Ok true
      /\ f = wrap 0
      /\ Output.to_frame no_output (sample.video_at 16 1 sample.f16_0) t = Ok (wrap 1))
  /\ (exists (x : float.t) (t : Time),
        float.int_truediv 99 100 = Ok x
        /\ Time.__init__ no_output PyNone (Some (PyFloat x)) = Ok t
        /\ AudioOutput.to_frame no_output sample.audio16 t = Ok (wrap 15)
        /\ Output.to_frame no_output (sample.video_at 16 1 sample.f16_0) t = Ok (wrap 16)).
Proof.
  apply (audio_to_frame_floors no_output sample.audio16
           (sample.video_at 16 1 sample.f16_0)); reflexivity.
Defined.

(** ** A frame rate of zero *)

Lemma raise_msg_class {A} (c c' : exc_type) (msg : string) :
  raises (raise_msg (A := A) c msg) c' -> c = c'.
Proof. intros [msg' H]. by injection H. Qed.

Lemma round_no_division (x : float.t) : ~ raises (float.round x) ZeroDivisionError.
Proof.
  intros [msg H]. destruct x as [s|s| |s m e]; simpl in H; try discriminate H.
  destruct (0 <=? e); [discriminate H|].
  destruct (_ ?= _); [destruct (Z.even _)| |]; discriminate H.
Qed.

Lemma floor_no_division (x : float.t) : ~ raises (float.floor x) ZeroDivisionError.
Proof.
  intros [msg H]. destruct x as [s|s| |s m e]; simpl in H; try discriminate H.
  destruct (0 <=? e); discriminate H.
Qed.

Lemma of_int_no_division (n : Z) : ~ raises (float.of_int n) ZeroDivisionError.
Proof.
  intros [msg H]. unfold float.of_int in H.
  destruct (binary_normalize _ _ _ _ _); discriminate H.
Qed.

Lemma int_truediv_no_division (a b : Z) :
  b <> 0 -> ~ raises (float.int_truediv a b) ZeroDivisionError.
Proof.
  intros Hb [msg H]. unfold float.int_truediv in H.
  destruct b; [done| |]; (destruct a; [discriminate H| |]);
    destruct (SFdiv _ _ _ _); discriminate H.
Qed.

Create HintDb no_division.
#[local] Hint Resolve round_no_division floor_no_division of_int_no_division
  int_truediv_no_division : no_division.
#[local] Hint Extern 1 (_ <> _ :> Z) => lia : no_division.
#[local] Hint Unfold Output._calculate_frame AudioOutput._calculate_frame : no_division.

Lemma mul_zero (s fps : float.t) :
  float.is_finite s = true -> float.is_zero fps = true ->
  float.is_zero (float.__mul__ s fps) = true.
Proof. destruct s, fps; simpl; (discriminate || reflexivity). Qed.

(** C5, as stated, fails. On the video output built from a clip of
    variable frame rate, whose fps is [0.0], two seconds are converted to
    frame [0], not to the frame [2] that an fps of 1 gives: nothing is
    substituted in the seconds-to-frame direction. And the audio output has
    no guard at all: with an fps of [0.0] its frame-to-seconds division
    raises [ZeroDivisionError], already inside [__init__]. *)
Lemma zero_fps_as_stated_fails :
  (exists v : Output.t,
      Output.__init__ no_output ∅ sample.clip_vfr 0 = Ok v
      /\ float.is_zero (Output.fps v) = true
      /\ Output._calculate_frame v sample.f2_0 = Ok 0
      /\ float.round (float.__mul__ sample.f2_0 sample.f1_0) = Ok 2
      /\ Output._calculate_frame v sample.f2_0
         <> float.round (float.__mul__ sample.f2_0 sample.f1_0))
  /\ float.int_truediv (sample_rate sample.audio0) AudioOutput.SAMPLES_PER_FRAME
     = Ok (S754_zero false)
  /\ raises (AudioOutput.__init__ no_output None sample.audio0 0) ZeroDivisionError
  /\ (forall a : AudioOutput.t,
        AudioOutput.fps a = S754_zero false ->
        raises (AudioOutput._calculate_seconds a 1) ZeroDivisionError).
Proof.
  split; [|split; [|split]].
  - eexists. split; [vm_compute; reflexivity|].
    repeat split; try (vm_compute; reflexivity).
    vm_compute. discriminate.
  - vm_compute. reflexivity.
  - eexists. vm_compute. reflexivity.
  - intros a Ha. unfold AudioOutput._calculate_seconds. rewrite Ha.
    eexists. vm_compute. reflexivity.
Qed.

(** C5, amended. When the fps of a video output is zero, it is the
    frame-to-seconds direction that takes fps as 1: the frame number is
    divided by 1, and for no fps at all does this direction of a video
    output raise [ZeroDivisionError]. The seconds-to-frame direction
    multiplies by fps as it is, in the video and in the audio output: it
    divides nothing, and at an fps of zero it gives frame 0 for every
    finite number of seconds. *)
Theorem zero_fps_guard (v : Output.t) (a : AudioOutput.t) :
  float.is_zero (Output.fps v) = true ->
  float.is_zero (AudioOutput.fps a) = true ->
  (forall n : Z, Output._calculate_seconds v n = float.int_truediv n 1)
  /\ (forall (v' : Output.t) (n : Z),
        ~ raises (Output._calculate_seconds v' n) ZeroDivisionError)
  /\ (forall s : float.t, float.is_finite s = true ->
        Output._calculate_frame v s = Ok 0
        /\ AudioOutput._calculate_frame a s = Ok 0)
  /\ (forall (v' : Output.t) (a' : AudioOutput.t) (s : float.t),
        ~ raises (Output._calculate_frame v' s) ZeroDivisionError
        /\ ~ raises (AudioOutput._calculate_frame a' s) ZeroDivisionError).
Proof.
  intros Hv Ha. split; [|split; [|split]].
  - intros n. unfold Output._calculate_seconds, float.__bool__. by rewrite Hv.
  - intros v' n. unfold Output._calculate_seconds, float.__bool__.
    destruct (float.is_zero (Output.fps v')) eqn:Hz; cbn [negb].
    + auto with no_division.
    + unfold float.__rtruediv__.
      destruct (float.of_int n) as [x|e] eqn:Hx; cbn [mbind result_bind].
      * unfold float.__truediv__. rewrite Hz. intros [msg H]. discriminate H.
      * rewrite <- Hx. auto with no_division.
  - intros s Hs. unfold Output._calculate_frame, AudioOutput._calculate_frame.
    pose proof (mul_zero s _ Hs Hv) as H1. pose proof (mul_zero s _ Hs Ha) as H2.
    destruct (float.__mul__ s (Output.fps v)); try discriminate H1.
    destruct (float.__mul__ s (AudioOutput.fps a)); try discriminate H2.
    split; reflexivity.
  - intros v' a' s. split; autounfold with no_division; auto with no_division.
Qed.

Lemma zero_fps_guard_witness :
  Output._calculate_seconds (sample.video_at 0 1 (S754_zero false)) 9
  = float.int_truediv 9 1.
Proof.
  apply (zero_fps_guard _ (sample.audio_at 0 (S754_zero false))); reflexivity.
Defined.

(** ** Loading a stored video output *)

Lemma try_load_setattr_total (state : gmap string any) (name : string)
    (ty : class) (msg : string) (w : world) :
  exists w' : world, try_load state name ty __setattr__ msg w = (Ok tt, w').
Proof.
  unfold try_load. destruct (state !! name) as [v|]; [destruct (isinstance v ty)|];
    eexists; reflexivity.
Qed.

Lemma Load_bind_unfold {A B} (m : Load A) (k : A -> Load B) (w : world) :
  (m ≫= k) w = match m w with
               | (Ok a, w') => k a w'
               | (Error e, w') => (Error e, w')
               end.
Proof. reflexivity. Qed.

(** Whatever the stored mapping holds, [__setstate__] returns normally. *)
Lemma Output_setstate_never_raises (main_window : MainWindow)
    (state : gmap string any) (w : world) :
  exists w' : world, Output.__setstate__ main_window state w = (Ok tt, w').
Proof.
  unfold Output.__setstate__.
  rewrite Load_bind_unfold. cbn [__setattr__].
  rewrite Load_bind_unfold.
  destruct (try_load_setattr_total state "name" cls_str
              "Storage loading: Output: failed to parse name."
              (World (<["name":=PyStr EmptyString]> (self_attrs w)) (warnings w)))
    as [w1 ->].
  rewrite Load_bind_unfold. cbn [lift Frame.__init__ int_value Z.ltb Z.compare].
  rewrite Load_bind_unfold. cbn [__setattr__].
  rewrite Load_bind_unfold. unfold try_except_load at 1.
  destruct (try_load_setattr_total state "last_showed_frame" cls_Frame
              "Storage loading: Output: failed to parse last showed frame."
              (World (<["last_showed_frame":=PyFrame (wrap 0)]> (self_attrs w1))
                 (warnings w1)))
    as [w2 ->].
  rewrite Load_bind_unfold. cbn [__setattr__].
  rewrite Load_bind_unfold.
  destruct (try_load_setattr_total state "scening_lists" cls_SceningLists
              "Storage loading: Output: scening lists weren't parsed successfully."
              (World (<["scening_lists":=PySceningLists []]> (self_attrs w2))
                 (warnings w2)))
    as [w3 ->].
  unfold try_except_load. rewrite Load_bind_unfold. unfold getitem, lift.
  destruct (state !! "play_fps") as [p|]; [|eexists; reflexivity].
  destruct p; try (eexists; reflexivity).
  cbn. destruct (float.gt_zero x); eexists; reflexivity.
Qed.

(** The sibling cases of the play fps are warned about: a record without
    [play_fps], or with an int in its place, leaves one warning in the log. *)
Lemma missing_or_mistyped_play_fps_is_warned :
  warnings (Output.__setstate__ no_output (delete "play_fps" sample.stale_state)
              (World ∅ [])).2
  = ["Storage loading: Output: play fps weren't parsed successfully."]
  /\ warnings (Output.__setstate__ no_output
                 (<["play_fps" := PyInt 24]> sample.stale_state) (World ∅ [])).2
     = ["Storage loading: Output: play fps weren't parsed successfully."].
Proof. split; vm_compute; reflexivity. Qed.

(** C6. The stored record [sample.stale_state] is loaded onto the output
    of [sample.clip24], whose last frame is [Frame(9)]: [__setstate__] runs,
    then [__init__] on the restored attributes. The last showed frame,
    [Frame(100)], is reset to [Frame(0)] and the play fps, [-1.0], gives
    way to the fps of the source, [24.0]; nothing raises, and the log stays
    empty: neither replacement is warned about. *)
Theorem stale_state_is_replaced_silently :
  exists (w : world) (o : Output.t),
    Output.__setstate__ no_output sample.stale_state (World ∅ []) = (Ok tt, w)
    /\ self_attrs w !! "last_showed_frame" = Some (PyFrame (wrap 100))
    /\ self_attrs w !! "play_fps" = None
    /\ Output.__init__ no_output (self_attrs w) sample.clip24 0 = Ok o
    /\ Output.end_frame o = Some (wrap 9)
    /\ Output.storable o !! "last_showed_frame" = Some (PyFrame (wrap 0))
    /\ Output.storable o !! "play_fps" = Some (PyFloat sample.f24_0)
    /\ warnings w = [].
Proof.
  eexists. eexists.
  split; [vm_compute; reflexivity|].
  split; [vm_compute; reflexivity|].
  split; [vm_compute; reflexivity|].
  split; [vm_compute; reflexivity|].
  repeat split; vm_compute; reflexivity.
Qed.

(** * Further properties of the code *)

(** ** Frame and FrameInterval arithmetic *)

(** X1. [Frame + FrameInterval] and [Frame - FrameInterval] succeed
    exactly when the resulting int is not negative, fail with [ValueError]
    otherwise, and every Frame they return wraps that int and satisfies
    the invariant of the class. *)
Theorem Frame_arithmetic_keeps_invariant (main_window : MainWindow)
    (a : Frame) (d : FrameInterval) :
  (is_ok (Frame.__add__ main_window a d) = true <-> 0 <= value a + value d)
  /\ (is_ok (Frame.__sub__ main_window a (PyFrameInterval d)) = true
      <-> 0 <= value a - value d)
  /\ (value a + value d < 0 -> Frame.__add__ main_window a d = raise ValueError)
  /\ (value a - value d < 0 ->
      Frame.__sub__ main_window a (PyFrameInterval d) = raise ValueError)
  /\ (forall c : Frame, Frame.__add__ main_window a d = Ok c ->
        value c = value a + value d /\ Frame.invariant c)
  /\ (forall r : any, Frame.__sub__ main_window a (PyFrameInterval d) = Ok r ->
        exists c : Frame,
          r = PyFrame c /\ value c = value a - value d /\ Frame.invariant c).
Proof.
  unfold Frame.__add__, Frame.__sub__, Frame.invariant.
  rewrite !Frame_init_int.
  destruct (Z.ltb_spec (value a + value d) 0) as [Hs|Hs];
    destruct (Z.ltb_spec (value a - value d) 0) as [Hd|Hd]; simpl;
    (split; [split; (done || lia)|]); (split; [split; (done || lia)|]);
    (split; [intros; (done || lia)|]); (split; [intros; (done || lia)|]);
    (split; [intros c Hc|intros r Hr]); try discriminate.
  all: try (injection Hc as <-; simpl; lia).
  all: injection Hr as <-; eexists; repeat split; simpl; lia.
Qed.

Lemma Frame_arithmetic_keeps_invariant_witness :
  Frame.__add__ no_output (wrap 2) (wrap (-3)) = raise ValueError.
Proof.
  apply (Frame_arithmetic_keeps_invariant no_output (wrap 2) (wrap (-3))).
  simpl. lia.
Defined.

(** X2. FrameInterval arithmetic never raises and is that of the ints:
    [(a + b) - b] and [(a - b) + b] give back [a], [a + b] is [b + a],
    and [a * k] is [k * a]. *)
Theorem FrameInterval_arithmetic (main_window : MainWindow)
    (a b : FrameInterval) (k : Z) :
  (exists s r : FrameInterval,
      FrameInterval.__add__ main_window a b = Ok s
      /\ FrameInterval.__sub__ main_window s b = Ok r /\ r = a)
  /\ (exists s r : FrameInterval,
        FrameInterval.__sub__ main_window a b = Ok s
        /\ FrameInterval.__add__ main_window s b = Ok r /\ r = a)
  /\ FrameInterval.__add__ main_window a b = FrameInterval.__add__ main_window b a
  /\ FrameInterval.__mul__ main_window a k = FrameInterval.__rmul__ main_window a k
  /\ FrameInterval.__mul__ main_window a k = Ok (wrap (value a * k)).
Proof.
  destruct a as [x], b as [y].
  unfold FrameInterval.__add__, FrameInterval.__sub__, FrameInterval.__mul__,
    FrameInterval.__rmul__. simpl.
  split; [|split; [|split; [|split]]].
  - exists (wrap (x + y)), (wrap x). simpl. repeat split. do 2 f_equal. lia.
  - exists (wrap (x - y)), (wrap x). simpl. repeat split. do 2 f_equal. lia.
  - do 2 f_equal. lia.
  - do 2 f_equal. lia.
  - reflexivity.
Qed.

(** X3. Subtraction and addition of Frames compose: for a Frame [a] that
    satisfies the invariant and any Frame [b], the difference [a - b] is
    a FrameInterval [d] with [b + d == a]; going below zero in between is
    no obstacle, since [d] may be negative. *)
Theorem Frame_difference_added_back (main_window : MainWindow) (a b : Frame) :
  Frame.invariant a ->
  exists (d : FrameInterval) (c : Frame),
    Frame.__sub__ main_window a (PyFrame b) = Ok (PyFrameInterval d)
    /\ Frame.__add__ main_window b d = Ok c
    /\ YAMLObjectWrapper.__eq__ c a = true
    /\ c = a.
Proof.
  unfold Frame.invariant. intros Ha. destruct a as [x], b as [y]. simpl in *.
  exists (wrap (x - y)), (wrap x). split; [reflexivity|].
  unfold Frame.__add__. rewrite Frame_init_int. simpl.
  replace (y + (x - y)) with x by lia.
  destruct (Z.ltb_spec x 0); [lia|].
  repeat split. rewrite int_eq. simpl. apply Z.eqb_refl.
Qed.

Lemma Frame_difference_added_back_witness :
  exists (d : FrameInterval) (c : Frame),
    Frame.__sub__ no_output (wrap 2) (PyFrame (wrap 9)) = Ok (PyFrameInterval d)
    /\ Frame.__add__ no_output (wrap 9) d = Ok c
    /\ YAMLObjectWrapper.__eq__ c (wrap 2 : Frame) = true
    /\ c = wrap 2.
Proof.
  apply (Frame_difference_added_back no_output (wrap 2) (wrap 9)).
  unfold Frame.invariant. simpl. lia.
Defined.

(** X4. The in-place operators of Frame undo each other whatever the
    values, [a += d] followed by [a -= d] leaving the slot as it was; and
    where [a + d] succeeds, [a += d] leaves in [a] the value of [a + d]. *)
Theorem Frame_inplace_operators (main_window : MainWindow)
    (a : Frame) (d : FrameInterval) :
  Frame.__isub__ (Frame.__iadd__ a d) d = a
  /\ Frame.__iadd__ (Frame.__isub__ a d) d = a
  /\ (forall c : Frame, Frame.__add__ main_window a d = Ok c -> Frame.__iadd__ a d = c)
  /\ (forall c : Frame, Frame.__sub__ main_window a (PyFrameInterval d) = Ok (PyFrame c) ->
        Frame.__isub__ a d = c).
Proof.
  destruct a as [x], d as [y].
  unfold Frame.__isub__, Frame.__iadd__, Frame.__add__, Frame.__sub__.
  rewrite !Frame_init_int. simpl.
  repeat split.
  - f_equal. lia.
  - f_equal. lia.
  - intros c. destruct (x + y <? 0); [discriminate|]. by intros [= <-].
  - intros c. destruct (x - y <? 0); [discriminate|]. by intros [= <-].
Qed.

Lemma Frame_inplace_operators_witness :
  Frame.__iadd__ (wrap 4) (wrap 3) = (wrap 7 : Frame).
Proof.
  apply (Frame_inplace_operators no_output (wrap 4) (wrap 3)). reflexivity.
Defined.

(** ** Scenes *)

Lemma Scene_init_ok (s0 e0 : option Frame) (l : string) (sc : Scene) :
  Scene.__init__ s0 e0 l = Ok sc ->
  label sc = l
  /\ value (start sc) <= value (end_ sc)
  /\ exists a b : Frame,
       (s0 = Some a \/ (s0 = None /\ e0 = Some a))
       /\ (e0 = Some b \/ (e0 = None /\ s0 = Some b))
       /\ ((start sc = a /\ end_ sc = b /\ value a <= value b)
           \/ (start sc = b /\ end_ sc = a /\ value b < value a)).
Proof.
  intros Hsc. destruct s0 as [a|], e0 as [b|].
  - rewrite Scene_init_both in Hsc. injection Hsc as <-.
    destruct (Z.ltb_spec (value b) (value a)); simpl;
      (split; [done|]); (split; [lia|]); exists a, b; tauto.
  - destruct (Scene_init_one a l) as [H _]. rewrite H in Hsc. injection Hsc as <-.
    simpl. split; [done|]. split; [lia|]. exists a, a.
    split; [tauto|]. split; [tauto|]. left. repeat split. lia.
  - destruct (Scene_init_one b l) as [_ H]. rewrite H in Hsc. injection Hsc as <-.
    simpl. split; [done|]. split; [lia|]. exists b, b.
    split; [tauto|]. split; [tauto|]. left. repeat split. lia.
  - discriminate Hsc.
Qed.

Lemma Scene_contains_eq (s : Scene) (f : Frame) :
  Scene.__contains__ s f
  = Ok ((value (start s) <=? value f) && (value f <=? value (end_ s))).
Proof.
  unfold Scene.__contains__. rewrite !int_le. simpl.
  by destruct (value (start s) <=? value f).
Qed.

(** X5. A Scene built from two endpoints contains exactly the Frames
    between the smaller and the greater of them, both included, in
    whichever order the endpoints were given; a Scene built from one
    endpoint contains that Frame alone. *)
Theorem Scene_contains_between_endpoints (a b f : Frame) (l : string) :
  (exists sc : Scene,
      Scene.__init__ (Some a) (Some b) l = Ok sc
      /\ Scene.__contains__ sc a = Ok true
      /\ Scene.__contains__ sc b = Ok true
      /\ (Scene.__contains__ sc f = Ok true
          <-> Z.min (value a) (value b) <= value f <= Z.max (value a) (value b))
      /\ (Scene.__contains__ sc f = Ok false
          <-> value f < Z.min (value a) (value b)
              \/ Z.max (value a) (value b) < value f))
  /\ (exists sc : Scene,
        Scene.__init__ (Some a) None l = Ok sc
        /\ (Scene.__contains__ sc f = Ok true <-> value f = value a)).
Proof.
  split.
  - rewrite Scene_init_both. eexists. split; [reflexivity|].
    rewrite !Scene_contains_eq.
    destruct (Z.ltb_spec (value b) (value a)); simpl;
      repeat match goal with
             | |- context [?x <=? ?y] => destruct (Z.leb_spec x y)
             end; simpl; repeat split; intros; try lia; try done; try discriminate.
  - destruct (Scene_init_one a l) as [-> _]. eexists. split; [reflexivity|].
    rewrite Scene_contains_eq. simpl.
    destruct (Z.leb_spec (value a) (value f)), (Z.leb_spec (value f) (value a));
      simpl; split; intros; try lia; try done; try discriminate.
Qed.

(** X6. The duration of a constructed Scene is the FrameInterval
    [end - start], never negative, zero for a Scene of one endpoint, and
    adding it to [start] gives [end] whenever [start] is a valid Frame. *)
Theorem Scene_duration_spans (main_window : MainWindow)
    (s0 e0 : option Frame) (l : string) (sc : Scene) :
  Scene.__init__ s0 e0 l = Ok sc ->
  exists d : FrameInterval,
    Scene.duration main_window sc = Ok (PyFrameInterval d)
    /\ value d = value (end_ sc) - value (start sc)
    /\ 0 <= value d
    /\ ((s0 = None \/ e0 = None) -> value d = 0)
    /\ (Frame.invariant (start sc) ->
        Frame.__add__ main_window (start sc) d = Ok (end_ sc)).
Proof.
  intros Hsc. destruct (Scene_init_ok _ _ _ _ Hsc) as (_ & Hle & a & b & Ha & Hb & Hab).
  exists (wrap (value (end_ sc) - value (start sc))).
  split; [reflexivity|]. simpl. split; [reflexivity|]. split; [lia|]. split.
  - intros [->| ->].
    + destruct Ha as [Ha|[_ ->]]; [discriminate|].
      destruct Hb as [[= <-]|[Hb _]]; [|discriminate].
      destruct Hab as [(-> & -> & _)|(-> & -> & _)]; lia.
    + destruct Hb as [Hb|[_ ->]]; [discriminate|].
      destruct Ha as [[= <-]|[Ha _]]; [|discriminate].
      destruct Hab as [(-> & -> & _)|(-> & -> & _)]; lia.
  - unfold Frame.invariant, Frame.__add__. intros Hs. rewrite Frame_init_int. simpl.
    replace (value (start sc) + (value (end_ sc) - value (start sc)))
      with (value (end_ sc)) by lia.
    destruct (Z.ltb_spec (value (end_ sc)) 0); [lia|]. by destruct (end_ sc).
Qed.

Lemma Scene_duration_spans_witness :
  exists d : FrameInterval,
    Scene.duration no_output {| start := wrap 2; end_ := wrap 5; label := "x" |}
    = Ok (PyFrameInterval d)
    /\ value d = 5 - 2
    /\ 0 <= value d
    /\ ((Some (wrap 5 : Frame) = None \/ Some (wrap 2 : Frame) = None) -> value d = 0)
    /\ (Frame.invariant (wrap 2) ->
        Frame.__add__ no_output (wrap 2) d = Ok (wrap 5)).
Proof.
  apply (Scene_duration_spans no_output (Some (wrap 5)) (Some (wrap 2)) "x").
  reflexivity.
Defined.

Lemma Scene_gt_lex (a b : Scene) :
  Scene.__gt__ a b
  = Ok ((value (start b) <? value (start a))
        || ((value (start a) =? value (start b))
            && (value (end_ b) <? value (end_ a)))).
Proof.
  unfold Scene.__gt__, YAMLObjectWrapper.__ne__. rewrite int_eq, !int_gt.
  destruct (Z.eqb_spec (value (start a)) (value (start b))) as [Heq|Hne]; simpl.
  - f_equal. destruct (Z.ltb_spec (value (start b)) (value (start a))); [lia|done].
  - f_equal. by destruct (value (start b) <? value (start a)).
Qed.

Lemma Scene_eq_pair (a b : Scene) :
  Scene.__eq__ a b
  = (value (start a) =? value (start b)) && (value (end_ a) =? value (end_ b)).
Proof. reflexivity. Qed.

(** X7. The comparisons of Scenes order them by [(start, end)]
    lexicographically and never raise: exactly one of [a < b], [a == b],
    [a > b] holds, [<] is transitive, and the derived [<=], [>=], [!=],
    [<], inherited from the wrapper base class, follow the [==] and [>] of
    Scene. The label takes no part: Scenes that differ in it alone are
    equal. *)
Theorem Scene_order_lexicographic (a b c : Scene) :
  (exists lt eq gt : bool,
      Scene.__lt__ a b = Ok lt
      /\ Scene.__eq__ a b = eq
      /\ Scene.__gt__ a b = Ok gt
      /\ Scene.__ne__ a b = negb eq
      /\ Scene.__le__ a b = Ok (negb gt)
      /\ Scene.__ge__ a b = Ok (eq || gt)
      /\ ((lt = true /\ eq = false /\ gt = false)
          \/ (lt = false /\ eq = true /\ gt = false)
          \/ (lt = false /\ eq = false /\ gt = true))
      /\ (gt = true <->
          value (start a) > value (start b)
          \/ (value (start a) = value (start b) /\ value (end_ a) > value (end_ b)))
      /\ (eq = true <->
          value (start a) = value (start b) /\ value (end_ a) = value (end_ b)))
  /\ (Scene.__lt__ a b = Ok true -> Scene.__lt__ b c = Ok true ->
      Scene.__lt__ a c = Ok true)
  /\ (forall l : string,
        Scene.__eq__ a {| start := start a; end_ := end_ a; label := l |} = true).
Proof.
  assert (Hlt : forall x y : Scene,
             Scene.__lt__ x y
             = Ok ((value (start x) <? value (start y))
                   || ((value (start x) =? value (start y))
                       && (value (end_ x) <? value (end_ y))))).
  { intros x y. unfold Scene.__lt__, Scene.__ge__.
    rewrite Scene_eq_pair, Scene_gt_lex.
    destruct (Z.eqb_spec (value (start x)) (value (start y))),
      (Z.eqb_spec (value (end_ x)) (value (end_ y))),
      (Z.ltb_spec (value (start y)) (value (start x))),
      (Z.ltb_spec (value (end_ y)) (value (end_ x))),
      (Z.ltb_spec (value (start x)) (value (start y))),
      (Z.ltb_spec (value (end_ x)) (value (end_ y))); simpl; try lia; reflexivity. }
  split; [|split].
  - eexists _, _, _. split; [apply Hlt|]. split; [apply Scene_eq_pair|].
    split; [apply Scene_gt_lex|].
    unfold Scene.__ne__, Scene.__le__, Scene.__ge__.
    rewrite Scene_eq_pair, Scene_gt_lex. simpl.
    destruct (Z.eqb_spec (value (start a)) (value (start b))),
      (Z.eqb_spec (value (end_ a)) (value (end_ b))),
      (Z.ltb_spec (value (start b)) (value (start a))),
      (Z.ltb_spec (value (end_ b)) (value (end_ a))),
      (Z.ltb_spec (value (start a)) (value (start b))),
      (Z.ltb_spec (value (end_ a)) (value (end_ b))); simpl; try lia;
      repeat split; intros; try done; try lia; try tauto.
  - rewrite !Hlt. intros [= Hab] [= Hbc]. f_equal.
    apply orb_true_iff in Hab, Hbc. apply orb_true_iff.
    rewrite !andb_true_iff, !Z.ltb_lt, !Z.eqb_eq in *. lia.
  - intros l. rewrite Scene_eq_pair. simpl. by rewrite !Z.eqb_refl.
Qed.

Lemma Scene_order_lexicographic_witness :
  Scene.__lt__ {| start := wrap 1; end_ := wrap 4; label := "a" |}
               {| start := wrap 2; end_ := wrap 2; label := "c" |} = Ok true.
Proof.
  apply (Scene_order_lexicographic
           {| start := wrap 1; end_ := wrap 4; label := "a" |}
           {| start := wrap 1; end_ := wrap 9; label := "b" |}
           {| start := wrap 2; end_ := wrap 2; label := "c" |}); reflexivity.
Defined.

Lemma Scene_getstate_lookup (s : Scene) :
  Scene.__getstate__ s !! "start" = Some (PyFrame (start s))
  /\ Scene.__getstate__ s !! "end" = Some (PyFrame (end_ s))
  /\ Scene.__getstate__ s !! "label" = Some (PyStr (label s)).
Proof. unfold Scene.__getstate__. by simplify_map_eq. Qed.

(** X8. Storing a Scene and loading it again gives the same Scene: for
    every constructed Scene [sc], [__setstate__] applied to
    [__getstate__()] of [sc] returns [sc] itself, label included. A
    stored record whose endpoints are out of order loads with the
    endpoints swapped. *)
Theorem Scene_state_round_trip :
  (forall (s0 e0 : option Frame) (l : string) (sc : Scene),
      Scene.__init__ s0 e0 l = Ok sc ->
      Scene.__setstate__ (Scene.__getstate__ sc) = Ok sc)
  /\ (forall s : Scene,
        value (end_ s) < value (start s) ->
        Scene.__setstate__ (Scene.__getstate__ s)
        = Ok {| start := end_ s; end_ := start s; label := label s |}).
Proof.
  assert (H : forall s : Scene,
             Scene.__setstate__ (Scene.__getstate__ s)
             = Scene.__init__ (Some (start s)) (Some (end_ s)) (label s)).
  { intros s. unfold Scene.__setstate__, getitem.
    destruct (Scene_getstate_lookup s) as (-> & -> & ->). reflexivity. }
  split.
  - intros s0 e0 l sc Hsc. rewrite H, Scene_init_both.
    destruct (Scene_init_ok _ _ _ _ Hsc) as (_ & Hle & _).
    destruct (Z.ltb_spec (value (end_ sc)) (value (start sc))); [lia|].
    by destruct sc.
  - intros s Hs. rewrite H, Scene_init_both.
    destruct (Z.ltb_spec (value (end_ s)) (value (start s))); [done|lia].
Qed.

Lemma Scene_state_round_trip_witness :
  Scene.__setstate__
    (Scene.__getstate__ {| start := wrap 2; end_ := wrap 5; label := "x" |})
  = Ok {| start := wrap 2; end_ := wrap 5; label := "x" |}.
Proof.
  apply (proj1 Scene_state_round_trip (Some (wrap 5)) (Some (wrap 2)) "x").
  reflexivity.
Defined.

(** ** Time and TimeInterval arithmetic *)

Lemma normalized_spec (us : Z) :
  (Z.abs (us / timedelta.us_per_day) <= 999999999
   /\ timedelta.normalized us = Ok (Timedelta us))
  \/ (Z.abs (us / timedelta.us_per_day) > 999999999
      /\ exists msg, timedelta.normalized us = raise_msg OverflowError msg).
Proof.
  unfold timedelta.normalized. rewrite Z.gtb_ltb.
  destruct (Z.ltb_spec 999999999 (Z.abs (us / timedelta.us_per_day))).
  - right. split; [lia|]. eexists. reflexivity.
  - left. split; [lia|]. reflexivity.
Qed.

Lemma normalized_ok (us : Z) (d : timedelta) :
  timedelta.normalized us = Ok d ->
  d = Timedelta us /\ timedelta.valid d.
Proof.
  destruct (normalized_spec us) as [[Hle ->]|[_ [msg ->]]]; [|discriminate].
  intros [= <-]. split; [reflexivity|]. exact Hle.
Qed.






(** ** The quotient of two ints is a finite float *)

Lemma shr_1_nonneg (mrs : shr_record) : 0 <= shr_m mrs -> 0 <= shr_m (shr_1 mrs).
Proof.
  destruct mrs as [m r s]. simpl. intros Hm.
  destruct m as [|[p|p|]|[p|p|]]; simpl; lia.
Qed.

Lemma iter_pos_shr_1_nonneg (n : positive) (mrs : shr_record) :
  0 <= shr_m mrs -> 0 <= shr_m (SpecFloat.iter_pos shr_1 n mrs).
Proof.
  revert mrs. induction n as [n IH|n IH|]; intros mrs Hm; simpl.
  - apply IH, IH, shr_1_nonneg, Hm.
  - apply IH, IH, Hm.
  - apply shr_1_nonneg, Hm.
Qed.

Lemma shr_fexp_nonneg (prec emax m e : Z) (l : location) :
  0 <= m -> 0 <= shr_m (fst (shr_fexp prec emax m e l)).
Proof.
  intros Hm. unfold shr_fexp, shr.
  assert (0 <= shr_m (shr_record_of_loc m l)) as H0.
  { destruct l as [|[]]; simpl; exact Hm. }
  destruct (fexp prec emax (Zdigits2 m + e) - e); simpl; try exact H0.
  by apply iter_pos_shr_1_nonneg.
Qed.

Lemma binary_round_aux_not_nan (prec emax : Z) (sx : bool) (mx ex : Z) (lx : location) :
  0 <= mx -> binary_round_aux prec emax sx mx ex lx <> S754_nan.
Proof.
  intros Hm. unfold binary_round_aux.
  pose proof (shr_fexp_nonneg prec emax mx ex lx Hm) as H1.
  destruct (shr_fexp prec emax mx ex lx) as [mrs' e']. simpl in H1.
  assert (0 <= round_nearest_even (shr_m mrs') (loc_of_shr_record mrs')) as H2.
  { unfold round_nearest_even.
    destruct (loc_of_shr_record mrs') as [|[]]; try lia.
    destruct (Z.even (shr_m mrs')); lia. }
  pose proof (shr_fexp_nonneg prec emax _ e' loc_Exact H2) as H3.
  destruct (shr_fexp prec emax _ e' loc_Exact) as [mrs'' e'']. simpl in H3.
  destruct (shr_m mrs'') as [|p|p]; [discriminate| |lia].
  destruct (e'' <=? emax - prec); discriminate.
Qed.

Lemma SFdiv_finite_not_nan (prec emax : Z) (sx sy : bool) (mx my : positive) (ex ey : Z) :
  SFdiv prec emax (S754_finite sx mx ex) (S754_finite sy my ey) <> S754_nan.
Proof.
  unfold SFdiv, SFdiv_core_binary.
  set (m' := match _ - _ - _ with Z.pos _ => _ | 0 => _ | Z.neg _ => _ end).
  assert (0 <= m') as Hm'.
  { subst m'. destruct (_ - _ - _); [lia| |lia]. apply Z.shiftl_nonneg. lia. }
  destruct (Z.div_eucl m' (Z.pos my)) as [q r] eqn:Hqr.
  apply binary_round_aux_not_nan.
  assert (q = m' / Z.pos my) as -> by (unfold Z.div; by rewrite Hqr).
  apply Z.div_pos; lia.
Qed.

Lemma int_truediv_finite (a b : Z) (x : float.t) :
  float.int_truediv a b = Ok x -> float.is_finite x = true.
Proof.
  unfold float.int_truediv.
  destruct b as [|b|b]; [discriminate| |];
    (destruct a as [|a|a]; [by intros [= <-]| |]);
    (match goal with
     | |- context [SFdiv ?p ?e (S754_finite ?sx ?mx ?ex) (S754_finite ?sy ?my ?ey)] =>
         pose proof (SFdiv_finite_not_nan p e sx sy mx my ex ey) as Hnn;
         destruct (SFdiv p e (S754_finite sx mx ex) (S754_finite sy my ey))
     end);
    try discriminate; try (by intros [= <-]); done.
Qed.

(** ** What [Output.__init__] establishes *)

Lemma setdefault_lookup (k k' : string) (v : any) (m : gmap string any) :
  setdefault k v m !! k'
  = if decide (k = k') then Some (default v (m !! k)) else m !! k'.
Proof.
  unfold setdefault. case_decide as Hk.
  - subst k'. destruct (m !! k) eqn:Hm; simpl; [done|]. by rewrite lookup_insert_eq.
  - destruct (m !! k) eqn:Hm; [done|]. by rewrite lookup_insert_ne.
Qed.

Lemma Output_init_inv (main_window : MainWindow) (self : gmap string any)
    (vs_output : VideoOutputTuple) (index : Z) (o : Output.t) :
  Output.__init__ main_window self vs_output index = Ok o ->
  float.int_truediv (fps_numerator vs_output) (fps_denominator vs_output)
  = Ok (Output.fps o)
  /\ Output.index o = index
  /\ Output.fps_num o = fps_numerator vs_output
  /\ Output.fps_den o = fps_denominator vs_output
  /\ 1 <= num_frames vs_output
  /\ Output.total_frames o = wrap (num_frames vs_output)
  /\ Output.end_frame o = Some (wrap (num_frames vs_output - 1))
  /\ (exists (tt : TimeInterval) (et : Time),
        Output.total_time o = Some tt /\ Output.end_time o = Some et
        /\ value tt = value et)
  /\ Output.storable o !! "name"
     = Some (PyStr (match props_Name vs_output with
                    | Some n => "Output " ++ str index ++ ": " ++ n
                    | None => "Output " ++ str index
                    end))
  /\ (exists v : any,
        Output.storable o !! "last_showed_frame" = Some v
        /\ Output.gt_end_frame v (wrap (num_frames vs_output - 1)) = Ok false
        /\ match self !! "last_showed_frame" with
           | None => v = PyFrame (wrap 0)
           | Some v0 =>
               (Output.gt_end_frame v0 (wrap (num_frames vs_output - 1)) = Ok true
                /\ v = PyFrame (wrap 0))
               \/ (Output.gt_end_frame v0 (wrap (num_frames vs_output - 1)) = Ok false
                   /\ v = v0)
           end)
  /\ Output.storable o !! "scening_lists"
     = Some (default (PySceningLists []) (self !! "scening_lists"))
  /\ Output.storable o !! "play_fps"
     = Some (default (PyFloat (Output.fps o)) (self !! "play_fps"))
  /\ Output.storable o !! "frame_to_show"
     = Some (default PyNone (self !! "frame_to_show"))
  /\ (forall k : string, k ∉ Output.storable_attrs ->
        Output.storable o !! k = self !! k).
Proof.
  unfold Output.__init__. intros H.
  apply result_bind_ok in H as (fps & Hfps & H).
  cbn [FrameInterval.__init__ int_value mbind result_bind] in H.
  unfold FrameInterval.__sub__ in H.
  cbn [FrameInterval.__init__ int_value mbind result_bind value] in H.
  apply result_bind_ok in H as (tt & Htt & H).
  unfold YAMLObjectWrapper.__int__ in H. simpl value in H.
  rewrite (Frame_init_int _ (num_frames vs_output - 1)) in H.
  destruct (Z.ltb_spec (num_frames vs_output - 1) 0) as [Hn|Hn]; [discriminate|].
  cbn [mbind result_bind] in H.
  apply result_bind_ok in H as (et & Het & H).
  set (name := match props_Name vs_output with
               | Some n => "Output " ++ str index ++ ": " ++ n
               | None => "Output " ++ str index
               end).
  assert (Hs1 : match props_Name vs_output with
                | Some n =>
                    <["name":=PyStr ("Output " ++ str index ++ ": " ++ n)]>
                      (<["name":=PyStr ("Output " ++ str index)]> self)
                | None => <["name":=PyStr ("Output " ++ str index)]> self
                end = <["name" := PyStr name]> self).
  { subst name. destruct (props_Name vs_output); [apply insert_insert_eq|done]. }
  rewrite Hs1 in H. clear Hs1.
  rewrite lookup_insert_ne in H by done.
  apply result_bind_ok in H as (reset & Hreset & H).
  apply result_bind_ok in H as (self1 & Hself1 & H).
  apply result_bind_ok in H as (self2 & Hself2 & H).
  injection H as <-. simpl.
  assert (Hself2' : self2 = setdefault "play_fps" (PyFloat fps)
                              (setdefault "scening_lists" (PySceningLists []) self1)).
  { unfold setdefault.
    destruct (_ !! "play_fps"); [by injection Hself2|].
    rewrite Hfps in Hself2. by injection Hself2. }
  clear Hself2. subst self2.
  change (match ?m !! "frame_to_show" with Some _ => ?m | None => _ end)
    with (setdefault "frame_to_show" PyNone m).
  assert (Hself1' : self1 = if reset
                            then <["last_showed_frame":=PyFrame (wrap 0)]>
                                   (<["name":=PyStr name]> self)
                            else <["name":=PyStr name]> self).
  { destruct reset; by injection Hself1. }
  clear Hself1. subst self1.
  split; [done|]. do 3 (split; [done|]). split; [lia|]. do 2 (split; [done|]).
  split.
  { exists tt, et. do 2 (split; [done|]).
    unfold Output.to_time_interval, Output.to_time, YAMLObjectWrapper.__int__ in Htt, Het.
    simpl value in Htt, Het.
    destruct (Output._calculate_seconds _ _) as [sec|]; [|discriminate].
    cbn [mbind result_bind TimeInterval.__init__ Time.__init__] in Htt, Het.
    destruct (timedelta.new _) as [d|]; [|discriminate].
    cbn [mbind result_bind] in Htt, Het. injection Htt as <-. by injection Het as <-. }
  rewrite !setdefault_lookup.
  repeat (case_decide; try done).
  split.
  { destruct reset; by simplify_map_eq. }
  split.
  { destruct (self !! "last_showed_frame") as [v0|] eqn:Hv0.
    - destruct reset.
      + exists (PyFrame (wrap 0)). simplify_map_eq.
        split; [done|]. split; [|by left].
        rewrite int_gt. simpl. f_equal. apply Z.ltb_ge. lia.
      + exists v0. simplify_map_eq. split; [done|]. split; [done|]. by right.
    - injection Hreset as <-. exists (PyFrame (wrap 0)). simplify_map_eq.
      split; [done|]. split; [|done].
      rewrite int_gt. simpl. f_equal. apply Z.ltb_ge. lia. }
  split. { destruct reset; by simplify_map_eq. }
  split. { destruct reset; by simplify_map_eq. }
  split. { destruct reset; by simplify_map_eq. }
  intros k Hk. rewrite !setdefault_lookup.
  unfold Output.storable_attrs in Hk.
  repeat (case_decide; [subst; exfalso; apply Hk; set_solver|]).
  destruct reset; rewrite ?lookup_insert_ne; try done.
  all: intros <-; apply Hk; set_solver.
Qed.


(** X11. On a video and on an audio output, [to_frame] of a Time is
    [to_frame_interval] of the TimeInterval of the same duration followed
    by the check of the Frame constructor: both compute the same number,
    [to_frame] fails whenever [to_frame_interval] does, and beyond that
    raises [ValueError] exactly when the number is negative. *)
Theorem to_frame_checks_to_frame_interval (main_window : MainWindow)
    (v : Output.t) (a : AudioOutput.t) (d : timedelta) :
  Output.to_frame main_window v (wrap d)
  = (i ← Output.to_frame_interval main_window v (wrap d);
     if value i <? 0 then raise ValueError else Ok (wrap (value i)))
  /\ AudioOutput.to_frame main_window a (wrap d)
     = (i ← AudioOutput.to_frame_interval main_window a (wrap d);
        if value i <? 0 then raise ValueError else Ok (wrap (value i))).
Proof.
  unfold Output.to_frame, Output.to_frame_interval, AudioOutput.to_frame,
    AudioOutput.to_frame_interval, Time.__float__, TimeInterval.__float__.
  simpl value.
  split.
  - destruct (timedelta.total_seconds d) as [s|]; [|done]. simpl.
    by destruct (Output._calculate_frame v s).
  - destruct (timedelta.total_seconds d) as [s|]; [|done]. simpl.
    by destruct (AudioOutput._calculate_frame a s).
Qed.

Lemma Audio_init_inv (main_window : MainWindow) (name : option string)
    (vs_output : AudioNode) (index : Z) (a : AudioOutput.t) :
  AudioOutput.__init__ main_window name vs_output index = Ok a ->
  num_channels vs_output = 2
  /\ format_supported vs_output = true
  /\ float.int_truediv (sample_rate vs_output) 3000 = Ok (AudioOutput.fps a)
  /\ float.is_zero (AudioOutput.fps a) = false
  /\ AudioOutput.name a = default ("Audio Output " ++ str index) name
  /\ AudioOutput.index a = index
  /\ AudioOutput.fps_num a = sample_rate vs_output
  /\ AudioOutput.fps_den a = 3000
  /\ 1 <= audio_num_frames vs_output
  /\ AudioOutput.total_frames a = wrap (audio_num_frames vs_output)
  /\ AudioOutput.end_frame a = Some (wrap (audio_num_frames vs_output - 1))
  /\ (exists (tt : TimeInterval) (et : Time),
        AudioOutput.total_time a = Some tt /\ AudioOutput.end_time a = Some et
        /\ value tt = value et).
Proof.
  unfold AudioOutput.__init__. intros H.
  destruct (Z.eqb_spec (num_channels vs_output) 2) as [Hc|Hc]; [|discriminate].
  destruct (format_supported vs_output); [|discriminate].
  cbn [negb] in H.
  apply result_bind_ok in H as (fps & Hfps & H).
  cbn [FrameInterval.__init__ int_value mbind result_bind] in H.
  unfold FrameInterval.__sub__ in H.
  cbn [FrameInterval.__init__ int_value mbind result_bind value] in H.
  apply result_bind_ok in H as (tt & Htt & H).
  unfold YAMLObjectWrapper.__int__ in H. simpl value in H.
  rewrite (Frame_init_int _ (audio_num_frames vs_output - 1)) in H.
  destruct (Z.ltb_spec (audio_num_frames vs_output - 1) 0) as [Hn|Hn]; [discriminate|].
  cbn [mbind result_bind] in H.
  apply result_bind_ok in H as (et & Het & H).
  injection H as <-. simpl.
  unfold AudioOutput.to_time_interval, AudioOutput.to_time, YAMLObjectWrapper.__int__,
    AudioOutput._calculate_seconds, float.__rtruediv__ in Htt, Het.
  simpl value in Htt, Het. simpl AudioOutput.fps in Htt, Het.
  destruct (float.of_int _) as [x|]; [|discriminate].
  cbn [mbind result_bind] in Htt, Het. unfold float.__truediv__ in Htt, Het.
  destruct (float.is_zero fps) eqn:Hz; [discriminate|].
  cbn [mbind result_bind TimeInterval.__init__ Time.__init__] in Htt, Het.
  destruct (timedelta.new _) as [d|]; [|discriminate].
  cbn [mbind result_bind] in Htt, Het. injection Htt as <-. injection Het as <-.
  repeat split; try done; try lia.
  by exists (wrap d), (wrap d).
Qed.

Lemma total_seconds_zero : timedelta.total_seconds (Timedelta 0) = Ok (S754_zero false).
Proof. reflexivity. Qed.

Lemma round_mul_zero (s : bool) (fps : float.t) :
  float.is_finite fps = true ->
  float.round (float.__mul__ (S754_zero s) fps) = Ok 0
  /\ float.floor (float.__mul__ (S754_zero s) fps) = Ok 0.
Proof. by destruct fps. Qed.

Lemma timedelta_new_zero (s : bool) :
  timedelta.new (Some (PyFloat (S754_zero s))) = Ok (Timedelta 0).
Proof. by destruct s. Qed.

Lemma rtruediv_zero (fps : float.t) :
  float.is_finite fps = true -> float.is_zero fps = false ->
  exists s, float.__rtruediv__ fps 0 = Ok (S754_zero s).
Proof. destruct fps as [| | |s m e]; try done. intros _ _. by exists (xorb false s). Qed.

Lemma calculate_seconds_zero (o : Output.t) :
  float.is_finite (Output.fps o) = true ->
  exists s, Output._calculate_seconds o 0 = Ok (S754_zero s).
Proof.
  intros Hf. unfold Output._calculate_seconds, float.__bool__.
  destruct (float.is_zero (Output.fps o)) eqn:Hz; simpl.
  - by exists false.
  - by apply rtruediv_zero.
Qed.

(** X12. On every output that [__init__] returns, video or audio, time
    zero and frame zero correspond: [to_frame(Time())] is [Frame(0)],
    [to_time(Frame(0))] is [Time()], and the same holds of the intervals.
    No conversion raises there, also on a video output of fps [0.0]. *)
Theorem origin_corresponds (main_window mw : MainWindow) (self : gmap string any)
    (vs_output : VideoOutputTuple) (name : option string) (node : AudioNode)
    (index : Z) :
  (forall o : Output.t,
     Output.__init__ main_window self vs_output index = Ok o ->
     Output.to_frame mw o (wrap (Timedelta 0)) = Ok (wrap 0)
     /\ Output.to_time mw o (wrap 0) = Ok (wrap (Timedelta 0))
     /\ Output.to_frame_interval mw o (wrap (Timedelta 0)) = Ok (wrap 0)
     /\ Output.to_time_interval mw o (wrap 0) = Ok (wrap (Timedelta 0)))
  /\ (forall a : AudioOutput.t,
        AudioOutput.__init__ main_window name node index = Ok a ->
        AudioOutput.to_frame mw a (wrap (Timedelta 0)) = Ok (wrap 0)
        /\ AudioOutput.to_time mw a (wrap 0) = Ok (wrap (Timedelta 0))
        /\ AudioOutput.to_frame_interval mw a (wrap (Timedelta 0)) = Ok (wrap 0)
        /\ AudioOutput.to_time_interval mw a (wrap 0) = Ok (wrap (Timedelta 0))).
Proof.
  split.
  - intros o Ho. apply Output_init_inv in Ho as (Hfps & _).
    apply int_truediv_finite in Hfps.
    unfold Output.to_frame, Output.to_time, Output.to_frame_interval,
      Output.to_time_interval, Time.__float__, TimeInterval.__float__,
      YAMLObjectWrapper.__int__, Output._calculate_frame.
    simpl value. rewrite total_seconds_zero.
    destruct (calculate_seconds_zero o Hfps) as [s ->].
    cbn [mbind result_bind].
    destruct (round_mul_zero false _ Hfps) as [-> _].
    cbn [mbind result_bind Time.__init__ TimeInterval.__init__].
    rewrite timedelta_new_zero. done.
  - intros a Ha. apply Audio_init_inv in Ha as (_ & _ & Hfps & Hz & _).
    apply int_truediv_finite in Hfps.
    unfold AudioOutput.to_frame, AudioOutput.to_time, AudioOutput.to_frame_interval,
      AudioOutput.to_time_interval, Time.__float__, TimeInterval.__float__,
      YAMLObjectWrapper.__int__, AudioOutput._calculate_frame, AudioOutput._calculate_seconds.
    simpl value. rewrite total_seconds_zero.
    destruct (rtruediv_zero _ Hfps Hz) as [s ->].
    cbn [mbind result_bind].
    destruct (round_mul_zero false _ Hfps) as [_ ->].
    cbn [mbind result_bind Time.__init__ TimeInterval.__init__].
    rewrite timedelta_new_zero. done.
Qed.

Lemma sample_video24 : Output.__init__ no_output ∅ sample.clip24 0 = Ok sample.video24.
Proof. vm_compute. reflexivity. Qed.

Lemma origin_corresponds_witness :
  (Output.to_frame no_output sample.video24 (wrap (Timedelta 0)) = Ok (wrap 0)
   /\ Output.to_time no_output sample.video24 (wrap 0) = Ok (wrap (Timedelta 0))
   /\ Output.to_frame_interval no_output sample.video24 (wrap (Timedelta 0)) = Ok (wrap 0)
   /\ Output.to_time_interval no_output sample.video24 (wrap 0) = Ok (wrap (Timedelta 0)))
  /\ (AudioOutput.to_frame no_output sample.audio16 (wrap (Timedelta 0)) = Ok (wrap 0)
      /\ AudioOutput.to_time no_output sample.audio16 (wrap 0) = Ok (wrap (Timedelta 0))
      /\ AudioOutput.to_frame_interval no_output sample.audio16 (wrap (Timedelta 0)) = Ok (wrap 0)
      /\ AudioOutput.to_time_interval no_output sample.audio16 (wrap 0) = Ok (wrap (Timedelta 0))).
Proof.
  destruct (origin_corresponds no_output no_output ∅ sample.clip24 None sample.audio48k 0)
    as [Hv Ha].
  split; [apply Hv, sample_video24|apply Ha, sample_audio16].
Defined.

(** X13. [Output.__init__] raises [ZeroDivisionError] for a clip whose
    [fps_den] is 0; and an output that it returns comes from a clip of at
    least one frame and a non-zero [fps_den], has a finite [fps], the
    index and frame rate of its arguments, [total_frames] the number of
    frames, [end_frame] the last frame number, and a [total_time] of the
    same duration as [end_time]. *)
Theorem Output_init_establishes (main_window : MainWindow) (self : gmap string any)
    (vs_output : VideoOutputTuple) (index : Z) :
  (fps_denominator vs_output = 0 ->
   Output.__init__ main_window self vs_output index
   = raise_msg ZeroDivisionError "division by zero")
  /\ (forall o : Output.t,
        Output.__init__ main_window self vs_output index = Ok o ->
        fps_denominator vs_output <> 0
        /\ 1 <= num_frames vs_output
        /\ float.is_finite (Output.fps o) = true
        /\ Output.index o = index
        /\ Output.fps_num o = fps_numerator vs_output
        /\ Output.fps_den o = fps_denominator vs_output
        /\ Output.total_frames o = wrap (num_frames vs_output)
        /\ Output.end_frame o = Some (wrap (num_frames vs_output - 1))
        /\ exists (total_time : TimeInterval) (end_time : Time),
             Output.total_time o = Some total_time
             /\ Output.end_time o = Some end_time
             /\ value total_time = value end_time).
Proof.
  split.
  - intros Hden. unfold Output.__init__, float.int_truediv. by rewrite Hden.
  - intros o Ho.
    apply Output_init_inv in Ho
      as (Hfps & Hi & Hnum & Hden & Hn & Htf & Hef & Ht & _).
    split.
    { intros Hz. rewrite Hz in Hfps. unfold float.int_truediv in Hfps. discriminate. }
    split; [done|]. split; [by apply int_truediv_finite in Hfps|].
    done.
Qed.

Lemma Output_init_establishes_witness :
  fps_denominator sample.clip24 <> 0
  /\ 1 <= num_frames sample.clip24
  /\ float.is_finite (Output.fps sample.video24) = true
  /\ Output.index sample.video24 = 0
  /\ Output.fps_num sample.video24 = fps_numerator sample.clip24
  /\ Output.fps_den sample.video24 = fps_denominator sample.clip24
  /\ Output.total_frames sample.video24 = wrap (num_frames sample.clip24)
  /\ Output.end_frame sample.video24 = Some (wrap (num_frames sample.clip24 - 1))
  /\ exists (total_time : TimeInterval) (end_time : Time),
       Output.total_time sample.video24 = Some total_time
       /\ Output.end_time sample.video24 = Some end_time
       /\ value total_time = value end_time.
Proof.
  exact (proj2 (Output_init_establishes no_output ∅ sample.clip24 0) sample.video24 sample_video24).
Defined.

(** X14. The storable attributes after [Output.__init__]: [name] is
    always set anew from the index and the clip's [Name] property,
    whatever was restored; [scening_lists], [play_fps] and
    [frame_to_show] keep a restored value and otherwise get their
    defaults (no lists, the fps of the clip, [None]); [last_showed_frame]
    is never past [end_frame], being [Frame(0)] or the restored value; any
    other attribute is left as it was. *)
Theorem Output_init_storable (main_window : MainWindow) (self : gmap string any)
    (vs_output : VideoOutputTuple) (index : Z) (o : Output.t) :
  Output.__init__ main_window self vs_output index = Ok o ->
  Output.storable o !! "name"
  = Some (PyStr (match props_Name vs_output with
                 | Some n => "Output " ++ str index ++ ": " ++ n
                 | None => "Output " ++ str index
                 end))
  /\ Output.storable o !! "scening_lists"
     = Some (default (PySceningLists []) (self !! "scening_lists"))
  /\ Output.storable o !! "play_fps"
     = Some (default (PyFloat (Output.fps o)) (self !! "play_fps"))
  /\ Output.storable o !! "frame_to_show"
     = Some (default PyNone (self !! "frame_to_show"))
  /\ (exists v : any,
        Output.storable o !! "last_showed_frame" = Some v
        /\ Output.gt_end_frame v (wrap (num_frames vs_output - 1)) = Ok false
        /\ (v = PyFrame (wrap 0) \/ self !! "last_showed_frame" = Some v))
  /\ (forall k : string, k ∉ Output.storable_attrs -> Output.storable o !! k = self !! k).
Proof.
  intros Ho.
  apply Output_init_inv in Ho
    as (_ & _ & _ & _ & _ & _ & _ & _ & Hname & (v & Hv & Hgt & Hlast) & Hsl & Hpf & Hfs & Hk).
  do 4 (split; [done|]). split; [|done].
  exists v. do 2 (split; [done|]).
  destruct (self !! "last_showed_frame") as [v0|]; [|by left].
  destruct Hlast as [[_ ->]|[_ ->]]; [by left|by right].
Qed.

Lemma Output_init_storable_witness :
  Output.storable sample.video24 !! "name" = Some (PyStr "Output 0")
  /\ Output.storable sample.video24 !! "scening_lists" = Some (PySceningLists [])
  /\ Output.storable sample.video24 !! "play_fps" = Some (PyFloat sample.f24_0)
  /\ Output.storable sample.video24 !! "frame_to_show" = Some PyNone
  /\ (exists v : any,
        Output.storable sample.video24 !! "last_showed_frame" = Some v
        /\ Output.gt_end_frame v (wrap 9) = Ok false
        /\ (v = PyFrame (wrap 0) \/ (∅ : gmap string any) !! "last_showed_frame" = Some v))
  /\ (forall k : string,
        k ∉ Output.storable_attrs -> Output.storable sample.video24 !! k = (∅ : gmap string any) !! k).
Proof.
  exact (Output_init_storable no_output ∅ sample.clip24 0 sample.video24 sample_video24).
Defined.

Lemma getattrs_ok (o : Output.t) (names : list string) :
  (forall k, k ∈ names -> is_Some (Output.storable o !! k)) ->
  exists state, Output.getattrs o names = Ok state
    /\ forall k, state !! k = if decide (k ∈ names) then Output.storable o !! k else None.
Proof.
  induction names as [|n names IH]; intros Hall.
  - exists ∅. split; [done|]. intros k. rewrite lookup_empty.
    case_decide as Hk; [by apply elem_of_nil in Hk|done].
  - destruct IH as (state & Hstate & Hlook). { intros k Hk. apply Hall. by right. }
    destruct (Hall n) as [v Hv]; [by left|].
    exists (<[n := v]> state). simpl. rewrite Hv, Hstate. split; [done|].
    intros k. destruct (decide (k = n)) as [->|Hne].
    + rewrite lookup_insert_eq. rewrite decide_True by (by left). done.
    + rewrite lookup_insert_ne by done. rewrite Hlook.
      destruct (decide (k ∈ names)) as [Hin|Hin].
      * rewrite decide_True by (by right). done.
      * rewrite decide_False; [done|]. rewrite elem_of_cons. by intros [?|?].
Qed.

Lemma getattrs_first_missing (o : Output.t) (present : list string) (k : string)
    (rest : list string) :
  (forall k', k' ∈ present -> is_Some (Output.storable o !! k')) ->
  Output.storable o !! k = None ->
  Output.getattrs o (present ++ k :: rest)%list = raise_msg AttributeError k.
Proof.
  induction present as [|n present IH]; intros Hall Hk; simpl.
  - by rewrite Hk.
  - destruct (Hall n) as [v ->]; [by left|]. simpl.
    rewrite IH; [done| |done]. intros k' Hk'. apply Hall. by right.
Qed.

(** X15. On an output that [__init__] returned, [__getstate__] does not
    raise, and the mapping it returns holds exactly the storable
    attributes, each with the value of the attribute. *)
Theorem Output_getstate_after_init (main_window : MainWindow) (self : gmap string any)
    (vs_output : VideoOutputTuple) (index : Z) (o : Output.t) :
  Output.__init__ main_window self vs_output index = Ok o ->
  exists state : gmap string any,
    Output.__getstate__ o = Ok state
    /\ forall k : string,
         state !! k = if decide (k ∈ Output.storable_attrs)
                      then Output.storable o !! k else None.
Proof.
  intros Ho. apply getattrs_ok. intros k Hk.
  apply Output_init_inv in Ho
    as (_ & _ & _ & _ & _ & _ & _ & _ & Hname & (v & Hv & _) & Hsl & Hpf & Hfs & _).
  unfold Output.storable_attrs in Hk.
  repeat (apply elem_of_cons in Hk as [->|Hk]; [by eexists|]).
  set_solver.
Qed.

Lemma Output_getstate_after_init_witness :
  exists state : gmap string any,
    Output.__getstate__ sample.video24 = Ok state
    /\ forall k : string,
         state !! k = if decide (k ∈ Output.storable_attrs)
                      then Output.storable sample.video24 !! k else None.
Proof.
  exact (Output_getstate_after_init no_output ∅ sample.clip24 0 sample.video24 sample_video24).
Defined.

(** X16. On an object that lacks one of the storable attributes,
    [__getstate__] raises [AttributeError] for the first attribute, in
    the order of [storable_attrs], that the object lacks. *)
Theorem Output_getstate_missing_attribute (o : Output.t) (present : list string)
    (k : string) (rest : list string) :
  Output.storable_attrs = (present ++ k :: rest)%list ->
  (forall k' : string, k' ∈ present -> is_Some (Output.storable o !! k')) ->
  Output.storable o !! k = None ->
  Output.__getstate__ o = raise_msg AttributeError k.
Proof.
  intros Hattrs Hpresent Hk. unfold Output.__getstate__. rewrite Hattrs.
  by apply getattrs_first_missing.
Qed.

Lemma Output_getstate_missing_attribute_witness :
  Output.__getstate__
    (Output.set_storable (sample.video_at 24 1 sample.f24_0) "name" (PyStr "x"))
  = raise_msg AttributeError "last_showed_frame".
Proof.
  apply (Output_getstate_missing_attribute _ ["name"] "last_showed_frame"
           ["play_fps"; "frame_to_show"; "scening_lists"]).
  - reflexivity.
  - intros k' Hk'. apply elem_of_cons in Hk' as [->|Hk']; [by eexists|].
    by apply elem_of_nil in Hk'.
  - reflexivity.
Defined.

(** X17. [AudioOutput.__init__] raises [RuntimeError] for audio that is
    not 2-channel and for a format that the device does not support, each
    with its message; and an output that it returns comes from 2-channel
    audio of a supported format, a non-zero sample rate and at least one
    frame, has a finite non-zero [fps], [fps_num] the sample rate,
    [fps_den] [SAMPLES_PER_FRAME], the given name or the default one,
    [end_frame] the last frame number, and a [total_time] of the same
    duration as [end_time]. *)
Theorem AudioOutput_init_establishes (main_window : MainWindow) (name : option string)
    (vs_output : AudioNode) (index : Z) :
  (num_channels vs_output <> 2 ->
   AudioOutput.__init__ main_window name vs_output index
   = raise_msg RuntimeError "Non-2-channel audio is not supported")
  /\ (num_channels vs_output = 2 -> format_supported vs_output = false ->
      AudioOutput.__init__ main_window name vs_output index
      = raise_msg RuntimeError "Audio format not supported")
  /\ (forall a : AudioOutput.t,
        AudioOutput.__init__ main_window name vs_output index = Ok a ->
        num_channels vs_output = 2
        /\ format_supported vs_output = true
        /\ sample_rate vs_output <> 0
        /\ 1 <= audio_num_frames vs_output
        /\ float.is_finite (AudioOutput.fps a) = true
        /\ float.is_zero (AudioOutput.fps a) = false
        /\ AudioOutput.name a = default ("Audio Output " ++ str index) name
        /\ AudioOutput.index a = index
        /\ AudioOutput.fps_num a = sample_rate vs_output
        /\ AudioOutput.fps_den a = AudioOutput.SAMPLES_PER_FRAME
        /\ AudioOutput.total_frames a = wrap (audio_num_frames vs_output)
        /\ AudioOutput.end_frame a = Some (wrap (audio_num_frames vs_output - 1))
        /\ exists (total_time : TimeInterval) (end_time : Time),
             AudioOutput.total_time a = Some total_time
             /\ AudioOutput.end_time a = Some end_time
             /\ value total_time = value end_time).
Proof.
  split_and!.
  - intros Hc. unfold AudioOutput.__init__.
    by destruct (Z.eqb_spec (num_channels vs_output) 2).
  - intros Hc Hf. unfold AudioOutput.__init__. by rewrite Hc, Hf.
  - intros a Ha.
    apply Audio_init_inv in Ha
      as (Hc & Hf & Hfps & Hz & Hname & Hi & Hnum & Hden & Hn & Htf & Hef & Ht).
    split_and!; try done.
    + intros Hsr. rewrite Hsr in Hfps. injection Hfps as Hfps.
      by rewrite <- Hfps in Hz.
    + by apply int_truediv_finite in Hfps.
Qed.

Lemma AudioOutput_init_establishes_witness :
  num_channels sample.audio48k = 2
  /\ format_supported sample.audio48k = true
  /\ sample_rate sample.audio48k <> 0
  /\ 1 <= audio_num_frames sample.audio48k
  /\ float.is_finite (AudioOutput.fps sample.audio16) = true
  /\ float.is_zero (AudioOutput.fps sample.audio16) = false
  /\ AudioOutput.name sample.audio16 = default ("Audio Output " ++ str 0) None
  /\ AudioOutput.index sample.audio16 = 0
  /\ AudioOutput.fps_num sample.audio16 = sample_rate sample.audio48k
  /\ AudioOutput.fps_den sample.audio16 = AudioOutput.SAMPLES_PER_FRAME
  /\ AudioOutput.total_frames sample.audio16 = wrap (audio_num_frames sample.audio48k)
  /\ AudioOutput.end_frame sample.audio16 = Some (wrap (audio_num_frames sample.audio48k - 1))
  /\ exists (total_time : TimeInterval) (end_time : Time),
       AudioOutput.total_time sample.audio16 = Some total_time
       /\ AudioOutput.end_time sample.audio16 = Some end_time
       /\ value total_time = value end_time.
Proof.
  exact (proj2 (proj2 (AudioOutput_init_establishes no_output None sample.audio48k 0))
           sample.audio16 sample_audio16).
Defined.

(** ** The main window *)

Section switch_frame_facts.
Context (rendering : any -> result unit) (display_profile : any)
  (widgets : Frame -> result unit).

(** As [switch_frame] calls it, with the keyword [output_colorspace],
    [Output.render_frame] raises [TypeError] before its body runs. *)
Lemma render_frame_keyword (o : Output.t) (args : list any) :
  Output.render_frame rendering o args [("output_colorspace", display_profile)]
  = raise TypeError.
Proof. by destruct args as [|? [|? ?]]. Qed.

Lemma switch_frame_rendered (o : Output.t) (frame : Frame)
    (render_frame : MainWindow.render_frame_arg) :
  (if MainWindow.__bool__ render_frame then
     match render_frame with
     | MainWindow.a_tuple frames =>
         Output.render_frame rendering o (PyFrame frame :: frames)
           [("output_colorspace", display_profile)]
     | MainWindow.a_bool _ =>
         Output.render_frame rendering o [PyFrame frame]
           [("output_colorspace", display_profile)]
     end
   else Ok tt)
  = if MainWindow.__bool__ render_frame then raise TypeError else Ok tt.
Proof.
  destruct (MainWindow.__bool__ render_frame); [|done].
  destruct render_frame; apply render_frame_keyword.
Qed.

Lemma switch_frame_cases (o : Output.t) (pos : any)
    (render_frame : MainWindow.render_frame_arg) :
  let r := MainWindow.switch_frame rendering display_profile widgets o pos render_frame in
  r = (Ok tt, o)
  \/ (exists e, r = (Error e, o))
  \/ (exists frame : Frame,
        let shown := Output.set_storable o "frame_to_show" (PyFrame (wrap (value frame))) in
        Frame.__init__ (showing o) pos = Ok frame
        /\ match Output.end_frame o with
           | None => r = (raise_msg AttributeError "end_frame", shown)
           | Some end_frame =>
               r = if value end_frame <? value frame then (Ok tt, shown)
                   else if MainWindow.__bool__ render_frame then (raise TypeError, shown)
                   else (widgets frame,
                         Output.set_storable shown "last_showed_frame" (PyFrame frame))
           end).
Proof.
  cbv zeta. unfold MainWindow.switch_frame.
  destruct (Frame.__init__ (showing o) pos) as [frame|e] eqn:Hframe.
  - destruct pos; try by left.
    all: right; right; exists frame; split; [done|];
      cbn [Frame.__init__ Output.end_frame Output.set_storable];
      destruct (Output.end_frame o) as [end_frame|]; [|done];
      rewrite int_gt; destruct (value end_frame <? value frame); [done|];
      cbv zeta; rewrite switch_frame_rendered;
      by destruct (MainWindow.__bool__ render_frame).
  - destruct pos; try by left.
    all: right; left; by exists e.
Qed.
End switch_frame_facts.

(** X18. [switch_frame] keeps the last showed frame within the output:
    if [last_showed_frame] is a Frame not past [end_frame], it is so
    after the call as well, whatever the position is and whether the call
    returns or raises, in the rendering or in the widgets or elsewhere;
    [end_frame] is unchanged. *)
Theorem switch_frame_keeps_last_showed_frame_in_range
    (rendering : any -> result unit) (display_profile : any)
    (widgets : Frame -> result unit) (o : Output.t) (pos : any)
    (render_frame : MainWindow.render_frame_arg) (end_frame last : Frame) :
  Output.end_frame o = Some end_frame ->
  Output.storable o !! "last_showed_frame" = Some (PyFrame last) ->
  value last <= value end_frame ->
  let o' := (MainWindow.switch_frame rendering display_profile widgets
               o pos render_frame).2 in
  exists last' : Frame,
    Output.storable o' !! "last_showed_frame" = Some (PyFrame last')
    /\ value last' <= value end_frame
    /\ Output.end_frame o' = Some end_frame.
Proof.
  intros Hend Hlast Hle. cbv zeta.
  destruct (switch_frame_cases rendering display_profile widgets o pos render_frame)
    as [->|[[e ->]|(frame & _ & H)]].
  - by exists last.
  - by exists last.
  - rewrite Hend in H. cbv zeta in H.
    destruct (Z.ltb_spec (value end_frame) (value frame)); rewrite H; simpl.
    + exists last. by rewrite lookup_insert_ne.
    + destruct (MainWindow.__bool__ render_frame); simpl.
      * exists last. by rewrite lookup_insert_ne.
      * exists frame. rewrite lookup_insert_eq. split; [done|]. split; [lia|done].
Qed.

Lemma switch_frame_keeps_last_showed_frame_in_range_witness :
  let o' := (MainWindow.switch_frame (fun _ => Ok tt) PyNone (fun _ => Ok tt)
               sample.video24 (PyInt 7) (MainWindow.a_bool false)).2 in
  exists last' : Frame,
    Output.storable o' !! "last_showed_frame" = Some (PyFrame last')
    /\ value last' <= 9
    /\ Output.end_frame o' = Some (wrap 9).
Proof.
  apply (switch_frame_keeps_last_showed_frame_in_range (fun _ => Ok tt) PyNone
           (fun _ => Ok tt) sample.video24 (PyInt 7) (MainWindow.a_bool false)
           (wrap 9) (wrap 0));
    [reflexivity|reflexivity|simpl; lia].
Defined.

(** X19. Of the attributes of the current output that [__init__] sets,
    [switch_frame] assigns to [frame_to_show] and [last_showed_frame]
    alone. For the position [None] it returns without any change, and a
    position that is no Frame leaves the output as it was. Where
    [last_showed_frame] is assigned, it is the Frame of the position,
    which is not past [end_frame], [frame_to_show] is a Frame of the same
    number, no rendering was asked for, and the call ends as the updates
    of the widgets do; so a call that asks for the rendering never moves
    [last_showed_frame]. *)
Theorem switch_frame_assigns_two_attributes
    (rendering : any -> result unit) (display_profile : any)
    (widgets : Frame -> result unit) (o : Output.t) (pos : any)
    (render_frame : MainWindow.render_frame_arg) :
  let r := MainWindow.switch_frame rendering display_profile widgets
             o pos render_frame in
  Output.index r.2 = Output.index o
  /\ Output.fps_num r.2 = Output.fps_num o
  /\ Output.fps_den r.2 = Output.fps_den o
  /\ Output.fps r.2 = Output.fps o
  /\ Output.total_frames r.2 = Output.total_frames o
  /\ Output.total_time r.2 = Output.total_time o
  /\ Output.end_frame r.2 = Output.end_frame o
  /\ Output.end_time r.2 = Output.end_time o
  /\ (forall k : string, k <> "frame_to_show" -> k <> "last_showed_frame" ->
      Output.storable r.2 !! k = Output.storable o !! k)
  /\ (pos = PyNone -> r = (Ok tt, o))
  /\ (forall e, Frame.__init__ (showing o) pos = Error e -> r.2 = o)
  /\ (Output.storable r.2 !! "last_showed_frame"
      = Output.storable o !! "last_showed_frame"
      \/ exists frame end_frame : Frame,
           Frame.__init__ (showing o) pos = Ok frame
           /\ Output.end_frame o = Some end_frame
           /\ value frame <= value end_frame
           /\ MainWindow.__bool__ render_frame = false
           /\ r.1 = widgets frame
           /\ Output.storable r.2 !! "last_showed_frame" = Some (PyFrame frame)
           /\ Output.storable r.2 !! "frame_to_show"
              = Some (PyFrame (wrap (value frame))))
  /\ (MainWindow.__bool__ render_frame = true ->
      Output.storable r.2 !! "last_showed_frame"
      = Output.storable o !! "last_showed_frame").
Proof.
  cbv zeta.
  destruct (switch_frame_cases rendering display_profile widgets o pos render_frame)
    as [H|[[e H]|(frame & Hframe & H)]]; cbv zeta in H.
  - rewrite H. split_and!; try done. by left.
  - rewrite H. split_and!; try done; [|by left].
    intros ->. unfold MainWindow.switch_frame in H. congruence.
  - assert (pos <> PyNone) as Hpos by (by intros ->).
    assert (forall e, Frame.__init__ (showing o) pos <> Error e) as Herr by congruence.
    destruct (Output.end_frame o) as [end_frame|] eqn:Hend;
      [destruct (Z.ltb_spec (value end_frame) (value frame)) as [Hlt|Hge];
       [|destruct (MainWindow.__bool__ render_frame) eqn:Hrender]|];
      rewrite H; simpl; split_and!; try done;
      try (intros k ? ?; by rewrite ?lookup_insert_ne);
      try (intros e' He'; by destruct (Herr e'));
      try (intros _; by rewrite ?lookup_insert_ne);
      try (left; by rewrite ?lookup_insert_ne).
    right. exists frame, end_frame. split_and!; try done.
    + by rewrite lookup_insert_eq.
    + rewrite lookup_insert_ne by done. by rewrite lookup_insert_eq.
Qed.

(** X20. [switch_frame] to a frame number [n]. A negative [n] raises
    [ValueError] and changes nothing. Otherwise [frame_to_show] becomes
    [Frame(n)]; past [end_frame] the call returns and leaves
    [last_showed_frame] as it was. Within the output, a call that asks
    for the rendering, as the default [render_frame=True] does, raises
    [TypeError]: [render_frame] is called with the keyword
    [output_colorspace], which [Output.render_frame] does not take, and
    [last_showed_frame] stays as it was. A call with [render_frame=False]
    makes [last_showed_frame] [Frame(n)] and ends as the updates of the
    widgets do. *)
Theorem switch_frame_to_frame_number
    (rendering : any -> result unit) (display_profile : any)
    (widgets : Frame -> result unit) (o : Output.t) (n : Z)
    (render_frame : MainWindow.render_frame_arg) (end_frame : Frame) :
  Output.end_frame o = Some end_frame ->
  let r := MainWindow.switch_frame rendering display_profile widgets
             o (PyInt n) render_frame in
  (n < 0 -> r = (raise ValueError, o))
  /\ (0 <= n ->
      Output.storable r.2 !! "frame_to_show" = Some (PyFrame (wrap n))
      /\ (value end_frame < n ->
          r.1 = Ok tt
          /\ Output.storable r.2 !! "last_showed_frame"
             = Output.storable o !! "last_showed_frame")
      /\ (n <= value end_frame -> MainWindow.__bool__ render_frame = true ->
          r.1 = raise TypeError
          /\ Output.storable r.2 !! "last_showed_frame"
             = Output.storable o !! "last_showed_frame")
      /\ (n <= value end_frame -> MainWindow.__bool__ render_frame = false ->
          r.1 = widgets (wrap n)
          /\ Output.storable r.2 !! "last_showed_frame" = Some (PyFrame (wrap n)))).
Proof.
  intros Hend. cbv zeta. unfold MainWindow.switch_frame.
  rewrite Frame_init_int. split.
  - intros Hn. by destruct (Z.ltb_spec n 0); [|lia].
  - intros Hn. destruct (Z.ltb_spec n 0); [lia|].
    cbn [Frame.__init__ Output.end_frame Output.set_storable value].
    rewrite Hend, int_gt. cbn [value]. cbv zeta.
    rewrite (switch_frame_rendered rendering display_profile).
    destruct (Z.ltb_spec (value end_frame) n) as [Hlt|Hge];
      [|destruct (MainWindow.__bool__ render_frame)]; simpl.
    + rewrite lookup_insert_eq. split; [done|].
      split; [intros _; split; [done|by rewrite lookup_insert_ne]|].
      split; intros; lia.
    + rewrite lookup_insert_eq. split; [done|].
      split; [intros; lia|].
      split; [intros _ _; split; [done|by rewrite lookup_insert_ne]|done].
    + rewrite lookup_insert_ne by done. rewrite !lookup_insert_eq. split; [done|].
      split; [intros; lia|]. split; [done|]. done.
Qed.

Lemma switch_frame_to_frame_number_witness :
  let r := MainWindow.switch_frame (fun _ => Ok tt) PyNone (fun _ => Ok tt)
             sample.video24 (PyInt 7) (MainWindow.a_bool true) in
  (7 < 0 -> r = (raise ValueError, sample.video24))
  /\ (0 <= 7 ->
      Output.storable r.2 !! "frame_to_show" = Some (PyFrame (wrap 7))
      /\ (9 < 7 ->
          r.1 = Ok tt
          /\ Output.storable r.2 !! "last_showed_frame"
             = Output.storable sample.video24 !! "last_showed_frame")
      /\ (7 <= 9 -> MainWindow.__bool__ (MainWindow.a_bool true) = true ->
          r.1 = raise TypeError
          /\ Output.storable r.2 !! "last_showed_frame"
             = Output.storable sample.video24 !! "last_showed_frame")
      /\ (7 <= 9 -> MainWindow.__bool__ (MainWindow.a_bool true) = false ->
          r.1 = (fun _ : Frame => Ok tt) (wrap 7)
          /\ Output.storable r.2 !! "last_showed_frame" = Some (PyFrame (wrap 7)))).
Proof.
  apply (switch_frame_to_frame_number (fun _ => Ok tt) PyNone (fun _ => Ok tt)
           sample.video24 7 (MainWindow.a_bool true) (wrap 9)).
  reflexivity.
Defined.

(** X21. [on_wheel_scrolled] hands a valid index to the zoom combobox
    whenever there is a zoom level: the new index is the current one plus
    the steps, brought to [0] from below and to the last index from above;
    with no zoom level at all, a non-negative sum gives [-1]. *)
Theorem on_wheel_scrolled_clamps (current_index steps len_zoom_levels : Z) :
  let r := MainWindow.on_wheel_scrolled current_index steps len_zoom_levels in
  (0 < len_zoom_levels -> 0 <= r < len_zoom_levels)
  /\ (0 <= current_index + steps < len_zoom_levels -> r = current_index + steps)
  /\ (current_index + steps < 0 -> r = 0)
  /\ (0 <= current_index + steps -> len_zoom_levels <= current_index + steps ->
      r = len_zoom_levels - 1).
Proof.
  unfold MainWindow.on_wheel_scrolled. cbv zeta.
  destruct (Z.ltb_spec (current_index + steps) 0);
    destruct (Z.geb_spec (current_index + steps) len_zoom_levels); lia.
Qed.

(** ** The pipette *)


Lemma SFltb_irrefl (x : float.t) : SFltb x x = false.
Proof.
  destruct x as [[]|[]| |s m e]; try done.
  unfold SFltb, SFcompare. destruct s; rewrite Z.compare_refl;
    change (Pos.compare_cont Eq m m) with (Pos.compare m m);
    by rewrite Pos.compare_refl.
Qed.

Lemma SFltb_asym (x y : float.t) : SFltb x y = true -> SFltb y x = false.
Proof.
  destruct x as [[]|[]| |s m e], y as [[]|[]| |s' m' e']; try done;
    try (by destruct s); try (by destruct s').
  unfold SFltb, SFcompare.
  change (Pos.compare_cont Eq m m') with (Pos.compare m m').
  change (Pos.compare_cont Eq m' m) with (Pos.compare m' m).
  rewrite (Z.compare_antisym e e'), (Pos.compare_antisym m m').
  destruct s, s'; try done; by destruct (e ?= e'), (m ?= m')%positive.
Qed.

Lemma SFltb_not_nan (x y : float.t) :
  SFltb x y = true -> x <> S754_nan /\ y <> S754_nan.
Proof. by destruct x, y. Qed.

(** X22. For a lower bound that is not NaN and an upper bound that is
    not below it, the result of [clip] is never NaN and lies within the
    bounds, for every [value], infinities and NaN included; a [value]
    above the lower bound and not above the upper one is returned as it
    is, and a NaN is turned into the lower bound. *)
Theorem clip_within_bounds (value lower_bound upper_bound : float.t) :
  lower_bound <> S754_nan ->
  SFltb upper_bound lower_bound = false ->
  let r := PipetteToolbar.clip value lower_bound upper_bound in
  r <> S754_nan
  /\ SFltb r lower_bound = false
  /\ SFltb upper_bound r = false
  /\ (SFltb lower_bound value = true -> SFltb upper_bound value = false -> r = value)
  /\ (value = S754_nan -> r = lower_bound).
Proof.
  intros Hnan Hle. unfold PipetteToolbar.clip, PipetteToolbar.max, PipetteToolbar.min.
  destruct (SFltb upper_bound value) eqn:Huv.
  - destruct (SFltb lower_bound upper_bound) eqn:Hlu.
    + repeat split; try done.
      * by apply SFltb_not_nan in Hlu as [_ ?].
      * apply SFltb_irrefl.
      * intros ->. by destruct upper_bound.
    + repeat split; try done. apply SFltb_irrefl.
  - destruct (SFltb lower_bound value) eqn:Hlv.
    + repeat split; try done.
      * by apply SFltb_not_nan in Hlv as [_ ?].
      * by apply SFltb_asym.
      * intros ->. by destruct lower_bound.
    + repeat split; try done. apply SFltb_irrefl.
Qed.

Lemma clip_within_bounds_witness :
  let r := PipetteToolbar.clip S754_nan sample.f1_0 sample.f2_0 in
  r <> S754_nan
  /\ SFltb r sample.f1_0 = false
  /\ SFltb sample.f2_0 r = false
  /\ (SFltb sample.f1_0 S754_nan = true -> SFltb sample.f2_0 S754_nan = false -> r = S754_nan)
  /\ (S754_nan = S754_nan -> r = sample.f1_0).
Proof. apply (clip_within_bounds S754_nan sample.f1_0 sample.f2_0); [discriminate|reflexivity]. Defined.

Lemma extract_value_element (st : PipetteToolbar.sample_type)
    (bytes_per_sample stride x y : Z) (ty : PipetteToolbar.ctype) (idx : Z) :
  PipetteToolbar.extract_value st bytes_per_sample stride x y
  = Ok (PipetteToolbar.element ty idx) ->
  PipetteToolbar.data_types st bytes_per_sample = Ok ty
  /\ 1 <= bytes_per_sample
  /\ idx = y * (stride / bytes_per_sample) + x.
Proof.
  unfold PipetteToolbar.extract_value, PipetteToolbar.floordiv.
  destruct (bool_decide (st = PipetteToolbar.FLOAT) && (bytes_per_sample =? 2)); [done|].
  destruct (PipetteToolbar.data_types st bytes_per_sample) as [ty'|] eqn:Hty; [|done].
  simpl.
  assert (1 <= bytes_per_sample).
  { unfold PipetteToolbar.data_types in Hty.
    destruct st, (Z.eqb_spec bytes_per_sample 1), (Z.eqb_spec bytes_per_sample 2),
      (Z.eqb_spec bytes_per_sample 4); (lia || done). }
  destruct (Z.eqb_spec bytes_per_sample 0); [lia|].
  intros [= -> <-]. done.
Qed.

(** X23. For a position inside a plane whose rows fit in the stride,
    a value that [extract_value] returns is read inside the plane: the
    two bytes of a half float lie within [stride * height] bytes, the
    index of any other sample lies within the [stride * height] elements
    of the array, and when the stride is a multiple of the sample size the
    element read is the one at byte [y * stride + x * bytes_per_sample]. *)
Theorem extract_value_reads_inside_plane (st : PipetteToolbar.sample_type)
    (bytes_per_sample stride width height x y : Z) (loc : PipetteToolbar.location) :
  0 <= x < width -> 0 <= y < height ->
  width * bytes_per_sample <= stride ->
  PipetteToolbar.extract_value st bytes_per_sample stride x y = Ok loc ->
  match loc with
  | PipetteToolbar.bytes_from offset =>
      st = PipetteToolbar.FLOAT /\ bytes_per_sample = 2
      /\ offset = y * stride + x * 2
      /\ 0 <= offset /\ offset + 2 <= stride * height
  | PipetteToolbar.element ty idx =>
      PipetteToolbar.data_types st bytes_per_sample = Ok ty
      /\ 0 <= idx < stride * height
      /\ (stride mod bytes_per_sample = 0 ->
          idx * bytes_per_sample = y * stride + x * bytes_per_sample)
  end.
Proof.
  intros Hx Hy Hrow Hloc. destruct loc as [offset|ty idx].
  - unfold PipetteToolbar.extract_value in Hloc.
    destruct (decide (st = PipetteToolbar.FLOAT)) as [->|Hst].
    + rewrite bool_decide_eq_true_2 in Hloc by done.
      destruct (Z.eqb_spec bytes_per_sample 2) as [->|]; cbn [andb] in Hloc.
      * injection Hloc as <-. repeat split; nia.
      * apply result_bind_ok in Hloc as (ty & _ & Hloc).
        by apply result_bind_ok in Hloc as (l & _ & Hloc).
    + rewrite bool_decide_eq_false_2 in Hloc by done. cbn [andb] in Hloc.
      apply result_bind_ok in Hloc as (ty & _ & Hloc).
      by apply result_bind_ok in Hloc as (l & _ & Hloc).
  - apply extract_value_element in Hloc as (Hty & Hb & ->).
    split; [done|].
    pose proof (Z.mul_div_le stride bytes_per_sample ltac:(lia)) as Hle.
    assert (width <= stride / bytes_per_sample) as Hw.
    { apply Z.div_le_lower_bound; lia. }
    split.
    + set (L := stride / bytes_per_sample) in *.
      assert (L <= stride) by nia.
      assert (0 <= y * L) by nia.
      assert (y * L <= (height - 1) * L) by nia.
      assert (height * L <= height * stride) by nia.
      lia.
    + intros Hmod.
      assert (stride = bytes_per_sample * (stride / bytes_per_sample)) as Hs.
      { apply Z.div_exact; lia. }
      set (L := stride / bytes_per_sample) in *. rewrite Hs. ring.
Qed.

Lemma extract_value_reads_inside_plane_witness :
  PipetteToolbar.data_types PipetteToolbar.INTEGER 2 = Ok PipetteToolbar.c_uint16
  /\ 0 <= 3 * (64 / 2) + 5 < 64 * 4
  /\ (64 mod 2 = 0 -> (3 * (64 / 2) + 5) * 2 = 3 * 64 + 5 * 2).
Proof.
  apply (extract_value_reads_inside_plane PipetteToolbar.INTEGER 2 64 10 4 5 3
           (PipetteToolbar.element PipetteToolbar.c_uint16 (3 * (64 / 2) + 5)));
    [lia|lia|lia|reflexivity].
Defined.


